(** * ol-print-layout-control: a shallow embedding of [PrintLayout]

    The development follows [src/ol-print-layout-control.ts].  The control
    keeps its configuration (paper format, orientation, margins) in the
    property bag it inherits from OpenLayers' [Control]; the getters and
    setters of the class read and write that bag, resize two DOM elements and
    ask the host map for pixel/coordinate conversions.

    Modelling choices, all local to this file:
    - a JavaScript [number] is an IEEE 754 binary64 value (the primitive
      [float]), with the engine's arithmetic, comparisons and [Math.round];
    - a string stands for a JavaScript string through its UTF-8 bytes, so
      the ASCII characters are the bytes below 128;
      [String.prototype.toUpperCase] is taken from the host, together with
      the two facts about it that the class relies on;
    - a method is a function from the instance state to a completion
      (normal value or thrown exception) and the state it leaves behind;
    - the host (engine, OpenLayers map, browser layout, projection helpers)
      is a record of functions the methods are parameterised by. *)

From Stdlib Require Import String Ascii List ZArith Lia Bool Floats.
From Stdlib Require Uint63.
Import ListNotations.
Local Open Scope string_scope.

(* ------------------------------------------------------------------ *)
(** ** JavaScript values *)

Module Js.

(** [number]: binary64. *)
Definition number : Type := float.

Definition Infinity : number := infinity.
Definition NegInfinity : number := neg_infinity.
Definition NaN : number := nan.

(** An integer literal of the program (exact below 2^53). *)
Definition of_Z (z : Z) : number :=
  match z with
  | Z0 => zero
  | Zpos _ => of_uint63 (Uint63.of_Z z)
  | Zneg p => PrimFloat.opp (of_uint63 (Uint63.of_Z (Zpos p)))
  end.

(** [x + y], [x - y], [x * y], [x / y] *)
Definition add (x y : number) : number := PrimFloat.add x y.
Definition sub (x y : number) : number := PrimFloat.sub x y.
Definition mul (x y : number) : number := PrimFloat.mul x y.
Definition div (x y : number) : number := PrimFloat.div x y.

(** [x < y]; every comparison with [NaN] is false. *)
Definition lt (x y : number) : bool := PrimFloat.ltb x y.

(** [x === y] on numbers: [NaN] equals nothing, [-0] equals [0]. *)
Definition strict_eq (x y : number) : bool := PrimFloat.eqb x y.

(** [Number.isFinite(x)] *)
Definition isFinite (x : number) : bool :=
  match Prim2SF x with
  | S754_zero _ | S754_finite _ _ _ => true
  | _ => false
  end.

(** [Math.round(x)]: the integer nearest to [x], ties towards
    [+Infinity]; a zero result keeps the sign of a negative [x].  A finite
    [x] is [(-1)^s * m * 2^e]; with [e >= 0] it is an integer already,
    otherwise [floor(x + 1/2)] is computed on the integers. *)
Definition Math_round (x : number) : number :=
  match Prim2SF x with
  | S754_finite s m e =>
      if (0 <=? e)%Z then x
      else
        let v := if s then Zneg m else Zpos m in
        match ((2 * v + 2 ^ (- e)) / 2 ^ (1 - e))%Z with
        | Z0 => if s then neg_zero else zero
        | r => of_Z r
        end
  | _ => x
  end.

(** [Number.MAX_SAFE_INTEGER] = 2^53 - 1 *)
Definition MAX_SAFE_INTEGER : number := of_Z (2 ^ 53 - 1).

(** A reference that may be [undefined] or [null]. *)
Inductive nullable (A : Type) : Type :=
| undefined
| null
| val (a : A).
Arguments undefined {A}.
Arguments null {A}.
Arguments val {A} a.

(** Truthiness of an object reference: only [undefined] and [null] are
    falsy. *)
Definition truthy {A : Type} (v : nullable A) : bool :=
  match v with val _ => true | _ => false end.

(** [s || d] on an optional string: [undefined] and the empty string are
    falsy. *)
Definition string_or (s : option string) (d : string) : string :=
  match s with
  | Some EmptyString | None => d
  | Some s' => s'
  end.

(** Upper-casing of the ASCII letters, every other byte kept. *)
Definition is_lower (c : ascii) : bool :=
  let n := nat_of_ascii c in (97 <=? n)%nat && (n <=? 122)%nat.

Definition upper_ascii (c : ascii) : ascii :=
  if is_lower c then ascii_of_nat (nat_of_ascii c - 32) else c.

Fixpoint upper (s : string) : string :=
  match s with
  | EmptyString => EmptyString
  | String c r => String (upper_ascii c) (upper r)
  end.

(** Some byte is an ASCII lower-case letter. *)
Fixpoint has_lower (s : string) : bool :=
  match s with
  | EmptyString => false
  | String c r => is_lower c || has_lower r
  end.

(** Every byte is below 128: the string is made of ASCII characters. *)
Fixpoint is_ascii (s : string) : bool :=
  match s with
  | EmptyString => true
  | String c r => (nat_of_ascii c <? 128)%nat && is_ascii r
  end.

(** An object literal used as a constant table: its own enumerable
    properties, in insertion order. *)
Definition object (V : Type) : Type := list (string * V).

Definition Object_keys {V} (o : object V) : list string := map fst o.
Definition Object_values {V} (o : object V) : list V := map snd o.

(** Property names every plain object inherits from [Object.prototype]. *)
Definition Object_prototype_keys : list string :=
  [ "constructor"; "hasOwnProperty"; "isPrototypeOf";
    "propertyIsEnumerable"; "toLocaleString"; "toString"; "valueOf";
    "__proto__"; "__defineGetter__"; "__defineSetter__";
    "__lookupGetter__"; "__lookupSetter__" ].

Definition mem (k : string) (l : list string) : bool :=
  existsb (String.eqb k) l.

(** [k in o]: own or inherited property. *)
Definition js_in {V} (k : string) (o : object V) : bool :=
  mem k (Object_keys o) || mem k Object_prototype_keys.

(** Own property lookup. *)
Fixpoint own {V} (o : object V) (k : string) : option V :=
  match o with
  | [] => None
  | (k', v) :: r => if String.eqb k k' then Some v else own r k
  end.

(** [String(array)] of an array of strings: the elements joined by a
    comma. *)
Definition Array_toString (l : list string) : string := String.concat "," l.

(** Exceptions the class can raise. *)
Inductive exn : Type :=
| Error (message : string)
| TypeError.

(** How an evaluation ends. *)
Inductive completion (A : Type) : Type :=
| Normal (a : A)
| Throw (e : exn).
Arguments Normal {A} a.
Arguments Throw {A} e.

End Js.
Import Js.

(* ------------------------------------------------------------------ *)
(** ** Constant tables of the module *)

(** [ORIENTATION = {PORTRAIT: 'portrait', LANDSCAPE: 'landscape'}] *)
Definition ORIENTATION : object string :=
  [ ("PORTRAIT", "portrait"); ("LANDSCAPE", "landscape") ].

(** [ORIENTATION.PORTRAIT] *)
Definition ORIENTATION_PORTRAIT : string := "portrait".

Definition PAPER_FORMAT : object string :=
  [ ("A4", "A4"); ("A3", "A3"); ("A2", "A2"); ("A1", "A1"); ("A0", "A0");
    ("LETTER", "LETTER"); ("TABLOID", "TABLOID");
    ("BROADSHEET", "BROADSHEET") ].

(** [PAPER_FORMAT.A4] *)
Definition PAPER_FORMAT_A4 : string := "A4".

(** [INCH2MM = 25.4], the binary64 value nearest to it. *)
Definition INCH2MM : number := 0x1.9666666666666p+4%float.

Record PaperSize : Type := { short : number; long : number }.

(** Paper dimensions in mm ([8.5] is exact in binary64). *)
Definition PAPER_SIZE : object PaperSize :=
  [ ("A4", {| short := of_Z 210; long := of_Z 297 |});
    ("A3", {| short := of_Z 297; long := of_Z 420 |});
    ("A2", {| short := of_Z 420; long := of_Z 594 |});
    ("A1", {| short := of_Z 594; long := of_Z 841 |});
    ("A0", {| short := of_Z 841; long := of_Z 1189 |});
    ("LETTER", {| short := mul 8.5%float INCH2MM;
                  long := mul (of_Z 11) INCH2MM |});
    ("TABLOID", {| short := mul (of_Z 11) INCH2MM;
                   long := mul (of_Z 17) INCH2MM |});
    ("BROADSHEET", {| short := mul (of_Z 17) INCH2MM;
                      long := mul (of_Z 22) INCH2MM |}) ].

(** [const {short, long} = PAPER_SIZE[format]].  An own key gives its entry.
    A name inherited from [Object.prototype] gives an object without
    [short] and [long]: both are [undefined], which every arithmetic use
    below turns into [NaN].  Any other name gives [undefined], and
    destructuring [undefined] throws. *)
Definition PAPER_SIZE_at (format : string) : completion PaperSize :=
  match own PAPER_SIZE format with
  | Some ps => Normal ps
  | None =>
      if mem format Object_prototype_keys
      then Normal {| short := NaN; long := NaN |}
      else Throw TypeError
  end.
(* ------------------------------------------------------------------ *)
(** ** Data of an instance *)

(** Identity of a host map object. *)
Definition Map : Type := nat.

(** [a === b] on references to maps. *)
Definition same_ref (a b : nullable Map) : bool :=
  match a, b with
  | undefined, undefined | null, null => true
  | val m, val m' => Nat.eqb m m'
  | _, _ => false
  end.

(** Margins in cm. *)
Record Margins : Type :=
  { top : number; bottom : number; left : number; right : number }.

Module Options.
Record t : Type :=
  { margins : option Margins;
    format : option string;
    orientation : option string }.
End Options.

Record Size : Type := { width : number; height : number }.

Module DOMRect.
Record t : Type :=
  { x : number; y : number;
    left : number; top : number; right : number; bottom : number;
    width : number; height : number }.
End DOMRect.

(** Inline style of the outer [div.paper-format]: [height] and [width] as
    written, [aspectRatio] as the number whose [String] was accepted last
    ([None] while unset). *)
Record ElementStyle : Type :=
  { style_height : string;
    style_width : string;
    style_aspectRatio : option number }.

(** Inline style of the inner [div.print-area]: the insets in px that were
    accepted last ([None] while unset). *)
Record PrintAreaStyle : Type :=
  { style_top : option number;
    style_bottom : option number;
    style_left : option number;
    style_right : option number }.

(** Listeners the control registers on its host. *)
Inductive Listener : Type :=
| ViewChange (m : Map)          (* getView().on('change', handleBboxChange) *)
| MapSizeChange (m : Map)       (* on('change:size', ...) *)
| ControlsRemoveOnce (m : Map). (* getControls().once('remove', ...) *)

Definition Listener_eqb (a b : Listener) : bool :=
  match a, b with
  | ViewChange m, ViewChange m'
  | MapSizeChange m, MapSizeChange m'
  | ControlsRemoveOnce m, ControlsRemoveOnce m' => Nat.eqb m m'
  | _, _ => false
  end.

(** What the control sends outwards: [this.changed()],
    [this.dispatchEvent('change')] and [map.renderSync()]. *)
Inductive Event : Type :=
| Changed
| DispatchChange
| RenderSync (m : Map).

(** The instance.  The four [values_*] fields are the entries of the
    inherited property bag under the keys of [PrintLayoutProperty]
    ('orientation', 'format', 'margins', 'bbox'); [map_] is what
    [getMap()] returns; [_map] is the field declared by the class. *)
Record PrintLayout : Type :=
  { values_orientation : string;
    values_format : string;
    values_margins : Margins;
    values_bbox : nullable (list number);
    map_ : nullable Map;
    _map : nullable Map;
    element_style : ElementStyle;
    printArea_style : PrintAreaStyle;
    listeners : list Listener;
    events : list Event }.

(** What the class consumes from its surroundings: the engine's
    [String.prototype.toUpperCase], the map's size and pixel to coordinate
    transform, the browser's layout of the elements under their current
    inline styles, and the two helpers imported from [ol/proj] and
    [ol/sphere].

    Of [toUpperCase] two facts are kept: on a string of ASCII characters
    it upper-cases the letters a-z and keeps the rest, and its result never
    contains one of the letters a-z.  [getSize] yields [None] for
    [undefined] (a map without a target); [getCoordinateFromPixel] yields
    [None] for [null] (a map that has no rendered frame). *)
Record Host : Type :=
  { toUpperCase : string -> string;
    toUpperCase_ascii :
      forall s, is_ascii s = true -> toUpperCase s = upper s;
    toUpperCase_no_lower : forall s, has_lower (toUpperCase s) = false;
    getSize : Map -> option (number * number);
    element_getBoundingClientRect :
      ElementStyle -> nullable Map -> DOMRect.t;
    printArea_getBoundingClientRect :
      ElementStyle -> PrintAreaStyle -> Map -> DOMRect.t;
    viewport_getBoundingClientRect : Map -> DOMRect.t;
    getCoordinateFromPixel : Map -> list number -> option (list number);
    transformExtent : list number -> string -> string -> list number;
    getDistance : list number -> list number -> number }.

(* ------------------------------------------------------------------ *)
(** ** Methods as state transformers *)

Definition M (A : Type) : Type := PrintLayout -> completion A * PrintLayout.

Definition ret {A} (a : A) : M A := fun this => (Normal a, this).

Definition throw {A} (e : exn) : M A := fun this => (Throw e, this).

Definition bind {A B} (c : M A) (k : A -> M B) : M B :=
  fun this =>
    match c this with
    | (Normal a, this') => k a this'
    | (Throw e, this') => (Throw e, this')
    end.

Definition gets {A} (f : PrintLayout -> A) : M A :=
  fun this => (Normal (f this), this).

Definition modify (f : PrintLayout -> PrintLayout) : M unit :=
  fun this => (Normal tt, f this).

(** Run a computation that may throw but does not write. *)
Definition reading {A} (f : PrintLayout -> completion A) : M A :=
  fun this => (f this, this).

Declare Scope js_scope.
Delimit Scope js_scope with js.
Notation "x <- c ;; k" := (bind c (fun x => k))
  (at level 61, c at next level, right associativity) : js_scope.
Notation "c ;; k" := (bind c (fun _ => k))
  (at level 61, right associativity) : js_scope.
Local Open Scope js_scope.

(** Field updates. *)
Definition with_orientation (v : string) (this : PrintLayout) : PrintLayout :=
  {| values_orientation := v; values_format := values_format this;
     values_margins := values_margins this; values_bbox := values_bbox this;
     map_ := map_ this; _map := _map this;
     element_style := element_style this;
     printArea_style := printArea_style this;
     listeners := listeners this; events := events this |}.

Definition with_format (v : string) (this : PrintLayout) : PrintLayout :=
  {| values_orientation := values_orientation this; values_format := v;
     values_margins := values_margins this; values_bbox := values_bbox this;
     map_ := map_ this; _map := _map this;
     element_style := element_style this;
     printArea_style := printArea_style this;
     listeners := listeners this; events := events this |}.

Definition with_margins (v : Margins) (this : PrintLayout) : PrintLayout :=
  {| values_orientation := values_orientation this;
     values_format := values_format this;
     values_margins := v; values_bbox := values_bbox this;
     map_ := map_ this; _map := _map this;
     element_style := element_style this;
     printArea_style := printArea_style this;
     listeners := listeners this; events := events this |}.

Definition with_bbox (v : nullable (list number)) (this : PrintLayout)
  : PrintLayout :=
  {| values_orientation := values_orientation this;
     values_format := values_format this;
     values_margins := values_margins this; values_bbox := v;
     map_ := map_ this; _map := _map this;
     element_style := element_style this;
     printArea_style := printArea_style this;
     listeners := listeners this; events := events this |}.

Definition with_map_ (v : nullable Map) (this : PrintLayout) : PrintLayout :=
  {| values_orientation := values_orientation this;
     values_format := values_format this;
     values_margins := values_margins this; values_bbox := values_bbox this;
     map_ := v; _map := _map this;
     element_style := element_style this;
     printArea_style := printArea_style this;
     listeners := listeners this; events := events this |}.

Definition with__map (v : nullable Map) (this : PrintLayout) : PrintLayout :=
  {| values_orientation := values_orientation this;
     values_format := values_format this;
     values_margins := values_margins this; values_bbox := values_bbox this;
     map_ := map_ this; _map := v;
     element_style := element_style this;
     printArea_style := printArea_style this;
     listeners := listeners this; events := events this |}.

Definition with_element_style (v : ElementStyle) (this : PrintLayout)
  : PrintLayout :=
  {| values_orientation := values_orientation this;
     values_format := values_format this;
     values_margins := values_margins this; values_bbox := values_bbox this;
     map_ := map_ this; _map := _map this;
     element_style := v;
     printArea_style := printArea_style this;
     listeners := listeners this; events := events this |}.

Definition with_printArea_style (v : PrintAreaStyle) (this : PrintLayout)
  : PrintLayout :=
  {| values_orientation := values_orientation this;
     values_format := values_format this;
     values_margins := values_margins this; values_bbox := values_bbox this;
     map_ := map_ this; _map := _map this;
     element_style := element_style this;
     printArea_style := v;
     listeners := listeners this; events := events this |}.

Definition with_listeners (v : list Listener) (this : PrintLayout)
  : PrintLayout :=
  {| values_orientation := values_orientation this;
     values_format := values_format this;
     values_margins := values_margins this; values_bbox := values_bbox this;
     map_ := map_ this; _map := _map this;
     element_style := element_style this;
     printArea_style := printArea_style this;
     listeners := v; events := events this |}.

Definition with_events (v : list Event) (this : PrintLayout) : PrintLayout :=
  {| values_orientation := values_orientation this;
     values_format := values_format this;
     values_margins := values_margins this; values_bbox := values_bbox this;
     map_ := map_ this; _map := _map this;
     element_style := element_style this;
     printArea_style := printArea_style this;
     listeners := listeners this; events := v |}.

(** Append to the outgoing trace. *)
Definition emit (e : Event) : M unit :=
  modify (fun this => with_events (events this ++ [e]) this).

(** [target.on(type, listener)] *)
Definition register (l : Listener) : M unit :=
  modify (fun this => with_listeners (listeners this ++ [l]) this).

(** Drop the first registration equal to [l], if any. *)
Fixpoint remove_first (l : Listener) (ls : list Listener) : list Listener :=
  match ls with
  | [] => []
  | l' :: r => if Listener_eqb l l' then r else l' :: remove_first l r
  end.

(** [target.un(type, listener)] *)
Definition unregister (l : Listener) : M unit :=
  modify (fun this => with_listeners (remove_first l (listeners this)) this).

(** [this.changed()] *)
Definition changed : M unit := emit Changed.

(** The loop of the margins setter: every own field below zero becomes 0. *)
Definition clamp (v : number) : number :=
  if lt v (of_Z 0) then of_Z 0 else v.

(** The object handed to the setter after the loop.  The loop writes into
    that very object, and the same object is stored afterwards; its later
    life in the hands of the caller is not followed here. *)
Definition clamp_margins (m : Margins) : Margins :=
  {| top := clamp (top m); bottom := clamp (bottom m);
     left := clamp (left m); right := clamp (right m) |}.

(* ------------------------------------------------------------------ *)
(** ** The class *)

(** [constructor(opt_options)].  The three options are stored as given (or
    their defaults); no setter runs. *)
Definition constructor (opt_options : option Options.t) : PrintLayout :=
  let options :=
    match opt_options with
    | Some o => o
    | None => {| Options.margins := None; Options.format := None;
                 Options.orientation := None |}
    end in
  {| values_orientation :=
       string_or (Options.orientation options) ORIENTATION_PORTRAIT;
     values_format := string_or (Options.format options) PAPER_FORMAT_A4;
     values_margins :=
       match Options.margins options with
       | Some m => m
       | None => {| top := of_Z 2; bottom := of_Z 2;
                    left := of_Z 2; right := of_Z 2 |}
       end;
     values_bbox := undefined;
     map_ := null;
     _map := undefined;
     element_style := {| style_height := ""; style_width := "";
                         style_aspectRatio := None |};
     printArea_style := {| style_top := None; style_bottom := None;
                           style_left := None; style_right := None |};
     listeners := [];
     events := [] |}.

(** [Control.prototype.setMap], as the host calls it when the control is
    added to or removed from a map. *)
Definition setMap (m : nullable Map) : M unit := modify (with_map_ m).

Definition getMap (this : PrintLayout) : nullable Map := map_ this.

Definition paperOrientation (this : PrintLayout) : string :=
  values_orientation this.

Definition paperFormat (this : PrintLayout) : string := values_format this.

Definition margins (this : PrintLayout) : Margins := values_margins this.

Definition getPrintBoxSizeInMM (this : PrintLayout) : completion Size :=
  match PAPER_SIZE_at (paperFormat this) with
  | Throw e => Throw e
  | Normal ps =>
      let horizontalMarginSum :=
        mul (add (left (margins this)) (right (margins this))) (of_Z 10) in
      let verticalMarginSum :=
        mul (add (top (margins this)) (bottom (margins this))) (of_Z 10) in
      Normal
        (if String.eqb (paperOrientation this) ORIENTATION_PORTRAIT
         then {| width := sub (short ps) horizontalMarginSum;
                 height := sub (long ps) verticalMarginSum |}
         else {| width := sub (long ps) horizontalMarginSum;
                 height := sub (short ps) verticalMarginSum |})
  end.

(** [getPrintBoxSizeInDots(dpi = 192)]; [None] is the omitted argument. *)
Definition getPrintBoxSizeInDots (dpi_arg : option number)
    (this : PrintLayout) : completion Size :=
  let dpi := match dpi_arg with Some d => d | None => of_Z 192 end in
  match getPrintBoxSizeInMM this with
  | Throw e => Throw e
  | Normal mm =>
      let widthInInch := div (width mm) INCH2MM in
      let heightInInch := div (height mm) INCH2MM in
      Normal {| width := Math_round (mul widthInInch dpi);
                height := Math_round (mul heightInInch dpi) |}
  end.

(** An assignment [style.<side> = `${v}px`]: the browser keeps the
    declaration when it parses as a length, which the text of a finite
    number followed by [px] does and ['NaNpx'], ['Infinitypx'] and
    ['-Infinitypx'] do not; otherwise the assignment is ignored. *)
Definition px_accepted (v : number) : bool := isFinite v.

(** An assignment [style.aspectRatio = String(v)]: kept when the text is a
    number that is not below zero, ignored otherwise. *)
Definition ratio_accepted (v : number) : bool :=
  isFinite v && negb (lt v (of_Z 0)).

Section Hosted.

Variable host : Host.

(** Margins in screen pixels. *)
Definition getPrintMarginsInPx (this : PrintLayout) : completion Margins :=
  let r := element_getBoundingClientRect host (element_style this)
             (getMap this) in
  match PAPER_SIZE_at (paperFormat this) with
  | Throw e => Throw e
  | Normal ps =>
      let CM2PX_FACTOR :=
        if String.eqb (paperOrientation this) ORIENTATION_PORTRAIT
        then div (DOMRect.height r) (div (long ps) (of_Z 10))
        else div (DOMRect.width r) (div (long ps) (of_Z 10)) in
      Normal {| top := mul (top (margins this)) CM2PX_FACTOR;
                bottom := mul (bottom (margins this)) CM2PX_FACTOR;
                left := mul (left (margins this)) CM2PX_FACTOR;
                right := mul (right (margins this)) CM2PX_FACTOR |}
  end.

(** [const [w, h] = this.getMap()!.getSize()!] throws when the size is
    [undefined]. *)
Definition getScreenMapAspectRatio (this : PrintLayout)
  : completion number :=
  match getMap this with
  | val m =>
      match getSize host m with
      | Some (w, h) =>
          Normal (if strict_eq h (of_Z 0) then MAX_SAFE_INTEGER else div w h)
      | None => Throw TypeError
      end
  | _ => Normal (of_Z 1)
  end.

Definition getPaperMapAspectRatio (this : PrintLayout) : completion number :=
  match PAPER_SIZE_at (paperFormat this) with
  | Throw e => Throw e
  | Normal ps =>
      Normal (if String.eqb (paperOrientation this) ORIENTATION_PORTRAIT
              then div (short ps) (long ps)
              else div (long ps) (short ps))
  end.

Definition getRestrictingDimension (this : PrintLayout)
  : completion string :=
  match getScreenMapAspectRatio this with
  | Throw e => Throw e
  | Normal screen =>
      match getPaperMapAspectRatio this with
      | Throw e => Throw e
      | Normal paper =>
          Normal (if lt screen paper then "width" else "height")
      end
  end.

(** One of the four [this.printArea.style.<side> = `${...}px`]
    assignments; the margins in px are recomputed each time. *)
Definition set_inset
    (side : Margins -> number)
    (upd : option number -> PrintAreaStyle -> PrintAreaStyle) : M unit :=
  px <- reading getPrintMarginsInPx ;;
  modify (fun this =>
    with_printArea_style
      (if px_accepted (side px)
       then upd (Some (side px)) (printArea_style this)
       else printArea_style this)
      this).

Definition setElementSize : M unit :=
  d <- reading getRestrictingDimension ;;
  modify (fun this =>
    with_element_style
      (if String.eqb d "width"
       then {| style_height := ""; style_width := "80%";
               style_aspectRatio := style_aspectRatio (element_style this) |}
       else {| style_height := "80%"; style_width := "";
               style_aspectRatio := style_aspectRatio (element_style this) |})
      this) ;;
  ps <- reading (fun this => PAPER_SIZE_at (paperFormat this)) ;;
  let aspectRatioPortrait := div (short ps) (long ps) in
  modify (fun this =>
    let ratio :=
      if String.eqb (paperOrientation this) ORIENTATION_PORTRAIT
      then aspectRatioPortrait
      else div (of_Z 1) aspectRatioPortrait in
    with_element_style
      {| style_height := style_height (element_style this);
         style_width := style_width (element_style this);
         style_aspectRatio :=
           if ratio_accepted ratio then Some ratio
           else style_aspectRatio (element_style this) |}
      this) ;;
  set_inset top (fun v s =>
    {| style_top := v; style_bottom := style_bottom s;
       style_left := style_left s; style_right := style_right s |}) ;;
  set_inset bottom (fun v s =>
    {| style_top := style_top s; style_bottom := v;
       style_left := style_left s; style_right := style_right s |}) ;;
  set_inset left (fun v s =>
    {| style_top := style_top s; style_bottom := style_bottom s;
       style_left := v; style_right := style_right s |}) ;;
  set_inset right (fun v s =>
    {| style_top := style_top s; style_bottom := style_bottom s;
       style_left := style_left s; style_right := v |}).

(** [[...lowerLeft, ...upperRight]] throws when a corner is [null]. *)
Definition computeBbox (this : PrintLayout)
  : completion (nullable (list number)) :=
  match getMap this with
  | val m =>
      let p := printArea_getBoundingClientRect host (element_style this)
                 (printArea_style this) m in
      let ol := viewport_getBoundingClientRect host m in
      let rel_left := sub (DOMRect.left p) (DOMRect.x ol) in
      let rel_top := sub (DOMRect.top p) (DOMRect.y ol) in
      let rel_right := sub (DOMRect.right p) (DOMRect.x ol) in
      let rel_bottom := sub (DOMRect.bottom p) (DOMRect.y ol) in
      match getCoordinateFromPixel host m [rel_left; rel_bottom],
            getCoordinateFromPixel host m [rel_right; rel_top] with
      | Some lowerLeft, Some upperRight =>
          Normal (val (lowerLeft ++ upperRight)%list)
      | _, _ => Throw TypeError
      end
  | _ => Normal null
  end.

(** [this.set('bbox', this.computeBbox())] *)
Definition set_bbox : M unit :=
  b <- reading computeBbox ;;
  modify (with_bbox b).

Definition handleBboxChange : M unit :=
  set_bbox ;;
  changed.

(** The render callback the constructor hands to [Control]. *)
Definition onRender : M unit :=
  fun this =>
    if negb (truthy (_map this)) || negb (same_ref (_map this) (getMap this))
    then
      (modify (fun this => with__map (getMap this) this) ;;
       m <- reading (fun this =>
              match getMap this with
              | val m => Normal m
              | _ => Throw TypeError
              end) ;;
       register (ViewChange m) ;;
       register (MapSizeChange m) ;;
       register (ControlsRemoveOnce m) ;;
       setElementSize ;;
       set_bbox ;;
       emit DispatchChange) this
    else (Normal tt, this).

(** The listener registered for ['change:size'] on the map. *)
Definition onChangeSize : M unit :=
  setElementSize ;; handleBboxChange.

(** The listener registered once for ['remove'] on the controls of map
    [m]; [e_is_this] is [e.element === this].  Being registered with
    [once], it is gone after its first call whatever the element. *)
Definition onControlsRemove (m : Map) (e_is_this : bool) : M unit :=
  unregister (ControlsRemoveOnce m) ;;
  if e_is_this
  then
    cur <- reading (fun this =>
             match _map this with
             | val m' => Normal m'
             | _ => Throw TypeError
             end) ;;
    (if Nat.eqb cur m then unregister (ViewChange m) else ret tt) ;;
    (if Nat.eqb cur m then unregister (MapSizeChange m) else ret tt) ;;
    modify (with__map null)
  else ret tt.

(** [map.renderSync()]: the host renders at once, and a render pass calls
    the render callback of each of its controls. *)
Definition renderSync (m : Map) : M unit :=
  emit (RenderSync m) ;; onRender.

(** The tail shared by the three setters. *)
Definition relayout : M unit :=
  setElementSize ;;
  mp <- gets getMap ;;
  match mp with
  | val m => renderSync m ;; handleBboxChange
  | _ => ret tt
  end ;;
  changed.

Definition set_paperOrientation (orientation : string) : M unit :=
  if js_in (toUpperCase host orientation) ORIENTATION
  then
    modify (with_orientation (toUpperCase host orientation)) ;;
    relayout
  else
    throw (Error ("orientaion must be one of: "
                  ++ Array_toString (Object_values ORIENTATION))).

Definition set_paperFormat (paperFormat : string) : M unit :=
  if js_in (toUpperCase host paperFormat) PAPER_FORMAT
  then
    modify (with_format (toUpperCase host paperFormat)) ;;
    relayout
  else
    throw (Error ("paperFormat must be on of: "
                  ++ Array_toString (Object_values PAPER_FORMAT))).

Definition set_margins (margins : nullable Margins) : M unit :=
  match margins with
  | val m =>
      modify (with_margins (clamp_margins m)) ;;
      relayout
  | _ => ret tt
  end.

Definition bbox : M (nullable (list number)) :=
  mp <- gets getMap ;;
  match mp with
  | val m => renderSync m ;; gets values_bbox
  | _ => ret null
  end.

Definition bboxAsLonLat : M (nullable (list number)) :=
  b <- bbox ;;
  if truthy b
  then
    b' <- bbox ;;
    match b' with
    | val extent => ret (val (transformExtent host extent "EPSG:3857" "EPSG:4326"))
    | _ => throw TypeError
    end
  else ret null.

Definition getPrintMapScaleDenominator : M (nullable number) :=
  b <- bboxAsLonLat ;;
  if negb (truthy b)
  then ret null
  else
    b' <- bboxAsLonLat ;;
    match b' with
    | val bbox4326 =>
        let lowerLeft := firstn 2 bbox4326 in
        let lowerRight := firstn 2 (skipn 2 bbox4326) in
        let horizontalDistanceInMeter :=
          getDistance host lowerLeft lowerRight in
        mm <- reading getPrintBoxSizeInMM ;;
        let widthInM := div (width mm) (of_Z 1000) in
        ret (val (div horizontalDistanceInMeter widthInM))
    | _ => throw TypeError
    end.

End Hosted.

(* ------------------------------------------------------------------ *)
(** ** Words of the specification *)

(** The input has the upper-case form of a known value:
    [input.toUpperCase()] equals [v.toUpperCase()] for some known [v].
    This is how the setters read "the input (case-insensitive) matches a
    known value". *)
Definition known_ignoring_case (host : Host) (known : list string)
    (input : string) : bool :=
  existsb
    (fun v => String.eqb (toUpperCase host input) (toUpperCase host v))
    known.

(** Two strings that differ at most in the case of ASCII letters. *)
Definition same_ignoring_ascii_case (a b : string) : bool :=
  String.eqb (upper a) (upper b).

(** A number below zero. *)
Definition Negative (v : number) : Prop := lt v (of_Z 0) = true.

(** A number above zero. *)
Definition Positive (v : number) : Prop := lt (of_Z 0) v = true.

(** [n] consecutive render callbacks from the host, each one running
    whatever the previous one did. *)
Fixpoint render_times (host : Host) (n : nat) (this : PrintLayout)
  : PrintLayout :=
  match n with
  | O => this
  | S k => render_times host k (snd (onRender host this))
  end.

(** Number of registrations equal to [l]. *)
Definition registered (l : Listener) (this : PrintLayout) : nat :=
  length (filter (Listener_eqb l) (listeners this)).

(** A method leaves an observation of the instance as it found it,
    however the call ends. *)
Definition preserves {X A : Type} (f : PrintLayout -> X) (c : M A) : Prop :=
  forall this, f (snd (c this)) = f this.

(** The stored configuration. *)
Definition configuration (this : PrintLayout) : string * string * Margins :=
  (values_orientation this, values_format this, values_margins this).

(** The attachment to a host: the map reported by [getMap()], the map
    remembered in [_map] and the registered listeners. *)
Definition attachment (this : PrintLayout)
  : nullable Map * nullable Map * list Listener :=
  (map_ this, _map this, listeners this).

(** From an instance satisfying [I], a method returns normally and leaves
    an instance satisfying [I]. *)
Definition ensures {A : Type} (I : PrintLayout -> Prop) (c : M A) : Prop :=
  forall this, I this -> (exists a, fst (c this) = Normal a) /\ I (snd (c this)).

(** The stored format is [format] and [getMap()] yields [mp]. *)
Definition placed (format : string) (mp : nullable Map) (this : PrintLayout)
  : Prop :=
  values_format this = format /\ map_ this = mp.

(** With the attachment [a], a method ends with the attachment [a]. *)
Definition steady {A : Type}
    (a : nullable Map * nullable Map * list Listener) (c : M A) : Prop :=
  forall this, attachment this = a -> attachment (snd (c this)) = a.

(** The map [m] has a size and turns every pixel into a coordinate: it
    has a target and a rendered frame. *)
Definition displayed (host : Host) (m : Map) : Prop :=
  (exists size, getSize host m = Some size)
  /\ forall pixel, exists coordinate,
       getCoordinateFromPixel host m pixel = Some coordinate.

(** What [getMap()] yields is nothing, or a map that is displayed. *)
Definition ready (host : Host) (mp : nullable Map) : Prop :=
  match mp with
  | val m => displayed host m
  | _ => True
  end.

(** What can happen to an instance while it stays on its map: render
    passes, the two registered listeners firing, and calls of the setters
    and of the getters that reach the map. *)
Inductive Call : Type :=
| Render
| ViewChanged
| SizeChanged
| SetOrientation (orientation : string)
| SetFormat (format : string)
| SetMargins (margins : nullable Margins)
| GetBbox
| GetBboxAsLonLat
| GetScaleDenominator.

Definition perform (host : Host) (c : Call) (this : PrintLayout)
  : PrintLayout :=
  match c with
  | Render => snd (onRender host this)
  | ViewChanged => snd (handleBboxChange host this)
  | SizeChanged => snd (onChangeSize host this)
  | SetOrientation s => snd (set_paperOrientation host s this)
  | SetFormat s => snd (set_paperFormat host s this)
  | SetMargins m => snd (set_margins host m this)
  | GetBbox => snd (bbox host this)
  | GetBboxAsLonLat => snd (bboxAsLonLat host this)
  | GetScaleDenominator => snd (getPrintMapScaleDenominator host this)
  end.

Definition run (host : Host) (calls : list Call) (this : PrintLayout)
  : PrintLayout :=
  fold_left (fun s c => perform host c s) calls this.




(** The four fields of a record of margins. *)
Definition sides : list (Margins -> number) := [top; bottom; left; right].

(** [new PrintLayout({margins})] *)
Definition with_margins_option (m : Margins) : option Options.t :=
  Some {| Options.margins := Some m; Options.format := None;
          Options.orientation := None |}.

(** [new PrintLayout({format})] *)
Definition with_format_option (f : string) : option Options.t :=
  Some {| Options.margins := None; Options.format := Some f;
          Options.orientation := None |}.

(** The instance once the host has added it to map [m]. *)
Definition added_to (m : Map) (this : PrintLayout) : PrintLayout :=
  snd (setMap (val m) this).

(* ------------------------------------------------------------------ *)
(** ** Hosts to run the methods on *)

(** The ASCII upper-casing leaves none of the letters a-z. *)
Lemma is_lower_upper_ascii (c : ascii) : is_lower (upper_ascii c) = false.
Proof.
  destruct c as [[] [] [] [] [] [] [] []]; vm_compute; reflexivity.
Qed.

Lemma has_lower_upper (s : string) : has_lower (upper s) = false.
Proof.
  induction s as [|c r IH]; simpl.
  - reflexivity.
  - rewrite is_lower_upper_ascii, IH. reflexivity.
Qed.

Definition inset (v : option number) : number :=
  match v with Some px => px | None => of_Z 0 end.

(** Squared planar distance between two points, standing in for the
    great-circle distance: zero exactly when the points coincide. *)
Definition planar_distance (a b : list number) : number :=
  match a, b with
  | [ax; ay], [bx; by_] =>
      add (mul (sub bx ax) (sub bx ax)) (mul (sub by_ ay) (sub by_ ay))
  | _, _ => NaN
  end.

(** The size of the paper element under the layout of the sample host:
    2 px per mm of an A4 sheet, 420 x 594 px, or 594 x 420 px once its
    aspect ratio is at least 1; nothing while the ratio is unset. *)
Definition paper_px (s : ElementStyle) : number * number :=
  match style_aspectRatio s with
  | Some r => if lt r (of_Z 1) then (of_Z 420, of_Z 594)
              else (of_Z 594, of_Z 420)
  | None => (of_Z 0, of_Z 0)
  end.

(** A viewport of 800 x 600 px at the origin of the page, with the paper
    element in its top left corner; the print area is the paper shrunk by
    its four insets.  Pixels are taken as coordinates and the
    re-projection is the identity.  Strings are upper-cased as ASCII. *)
Definition sample_host : Host :=
  {| toUpperCase := upper;
     toUpperCase_ascii := fun s _ => eq_refl;
     toUpperCase_no_lower := has_lower_upper;
     getSize := fun _ => Some (of_Z 800, of_Z 600);
     element_getBoundingClientRect := fun s _ =>
       {| DOMRect.x := of_Z 0; DOMRect.y := of_Z 0;
          DOMRect.left := of_Z 0; DOMRect.top := of_Z 0;
          DOMRect.right := fst (paper_px s);
          DOMRect.bottom := snd (paper_px s);
          DOMRect.width := fst (paper_px s);
          DOMRect.height := snd (paper_px s) |};
     printArea_getBoundingClientRect := fun s p _ =>
       let l := inset (style_left p) in
       let t := inset (style_top p) in
       let r := sub (fst (paper_px s)) (inset (style_right p)) in
       let b := sub (snd (paper_px s)) (inset (style_bottom p)) in
       {| DOMRect.x := l; DOMRect.y := t;
          DOMRect.left := l; DOMRect.top := t;
          DOMRect.right := r; DOMRect.bottom := b;
          DOMRect.width := sub r l; DOMRect.height := sub b t |};
     viewport_getBoundingClientRect := fun _ =>
       {| DOMRect.x := of_Z 0; DOMRect.y := of_Z 0;
          DOMRect.left := of_Z 0; DOMRect.top := of_Z 0;
          DOMRect.right := of_Z 800; DOMRect.bottom := of_Z 600;
          DOMRect.width := of_Z 800; DOMRect.height := of_Z 600 |};
     getCoordinateFromPixel := fun _ pixel => Some pixel;
     transformExtent := fun extent _ _ => extent;
     getDistance := planar_distance |}.

(** The sample host with another answer to [getSize()]. *)
Definition resized (size : option (number * number)) : Host :=
  {| toUpperCase := toUpperCase sample_host;
     toUpperCase_ascii := toUpperCase_ascii sample_host;
     toUpperCase_no_lower := toUpperCase_no_lower sample_host;
     getSize := fun _ => size;
     element_getBoundingClientRect :=
       element_getBoundingClientRect sample_host;
     printArea_getBoundingClientRect :=
       printArea_getBoundingClientRect sample_host;
     viewport_getBoundingClientRect :=
       viewport_getBoundingClientRect sample_host;
     getCoordinateFromPixel := getCoordinateFromPixel sample_host;
     transformExtent := transformExtent sample_host;
     getDistance := getDistance sample_host |}.

(** A viewport of height zero. *)
Definition collapsed_host : Host := resized (Some (of_Z 800, of_Z 0)).

(** A map that has no target: its size is [undefined]. *)
Definition untargeted_host : Host := resized None.

(** A map that has not rendered a frame: no pixel has a coordinate. *)
Definition unrendered_host : Host :=
  {| toUpperCase := toUpperCase sample_host;
     toUpperCase_ascii := toUpperCase_ascii sample_host;
     toUpperCase_no_lower := toUpperCase_no_lower sample_host;
     getSize := getSize sample_host;
     element_getBoundingClientRect :=
       element_getBoundingClientRect sample_host;
     printArea_getBoundingClientRect :=
       printArea_getBoundingClientRect sample_host;
     viewport_getBoundingClientRect :=
       viewport_getBoundingClientRect sample_host;
     getCoordinateFromPixel := fun _ _ => None;
     transformExtent := transformExtent sample_host;
     getDistance := getDistance sample_host |}.

(** The UTF-8 bytes of U+0131, the dotless i: a lower-case letter that is
    its own lower-case form, and whose upper-case form is the ASCII I. *)
Definition dotless_i : string :=
  String (ascii_of_nat 196) (String (ascii_of_nat 177) EmptyString).

(** Upper-casing that also knows the dotless i. *)
Fixpoint upper_dotless (s : string) : string :=
  match s with
  | EmptyString => EmptyString
  | String c r =>
      match r with
      | String c' r' =>
          if ((nat_of_ascii c =? 196) && (nat_of_ascii c' =? 177))%nat
          then String "I" (upper_dotless r')
          else String (upper_ascii c) (upper_dotless r)
      | EmptyString => String (upper_ascii c) EmptyString
      end
  end.

Lemma upper_dotless_ascii (s : string) :
  is_ascii s = true -> upper_dotless s = upper s.
Proof.
  induction s as [|c r IH]; [reflexivity|].
  cbn [is_ascii]. intros H. apply andb_prop in H. destruct H as [Hc Hr].
  specialize (IH Hr). cbn [upper_dotless upper]. destruct r as [|c' r'].
  - reflexivity.
  - replace (nat_of_ascii c =? 196)%nat with false.
    + cbn [andb]. rewrite IH. reflexivity.
    + symmetry. apply Nat.eqb_neq. apply Nat.ltb_lt in Hc. lia.
Qed.

Lemma has_lower_upper_dotless (s : string) :
  has_lower (upper_dotless s) = false.
Proof.
  assert (P : has_lower (upper_dotless s) = false
              /\ forall c, has_lower (upper_dotless (String c s)) = false).
  { induction s as [|a r [IH1 IH2]].
    - split; [reflexivity|]. intros c. cbn [upper_dotless has_lower].
      rewrite is_lower_upper_ascii. reflexivity.
    - split; [apply IH2|]. intros c.
      change (upper_dotless (String c (String a r)))
        with (if ((nat_of_ascii c =? 196) && (nat_of_ascii a =? 177))%nat
              then String "I" (upper_dotless r)
              else String (upper_ascii c) (upper_dotless (String a r))).
      destruct ((nat_of_ascii c =? 196) && (nat_of_ascii a =? 177))%nat.
      + cbn [has_lower]. rewrite IH1. reflexivity.
      + cbn [has_lower]. rewrite is_lower_upper_ascii, IH2. reflexivity. }
  apply P.
Qed.

(** The sample host on an engine whose [toUpperCase] maps the dotless i
    to I, as [String.prototype.toUpperCase] does. *)
Definition dotless_host : Host :=
  {| toUpperCase := upper_dotless;
     toUpperCase_ascii := upper_dotless_ascii;
     toUpperCase_no_lower := has_lower_upper_dotless;
     getSize := getSize sample_host;
     element_getBoundingClientRect :=
       element_getBoundingClientRect sample_host;
     printArea_getBoundingClientRect :=
       printArea_getBoundingClientRect sample_host;
     viewport_getBoundingClientRect :=
       viewport_getBoundingClientRect sample_host;
     getCoordinateFromPixel := getCoordinateFromPixel sample_host;
     transformExtent := transformExtent sample_host;
     getDistance := getDistance sample_host |}.

(* ------------------------------------------------------------------ *)
(** ** Upper-casing and the [in] test *)

Lemma mem_In (k : string) (l : list string) : mem k l = true <-> In k l.
Proof.
  unfold mem. rewrite existsb_exists. split.
  - intros [x [Hin Heq]]. apply String.eqb_eq in Heq. subst. exact Hin.
  - intros Hin. exists k. split; [exact Hin | apply String.eqb_refl].
Qed.

(** No upper-cased string is a property name of [Object.prototype]. *)
Lemma upper_not_inherited (host : Host) (s : string) :
  mem (toUpperCase host s) Object_prototype_keys = false.
Proof.
  destruct (mem (toUpperCase host s) Object_prototype_keys) eqn:E;
    [|reflexivity].
  apply mem_In in E.
  pose proof (toUpperCase_no_lower host s) as L.
  unfold Object_prototype_keys in E. simpl in E.
  repeat (destruct E as [E|E]; [rewrite <- E in L; discriminate L|]).
  contradiction.
Qed.

(** The keys of the two tables are the upper-case forms of their values. *)
Lemma keys_ORIENTATION (host : Host) :
  map (toUpperCase host) (Object_values ORIENTATION)
  = Object_keys ORIENTATION.
Proof.
  simpl. rewrite !(toUpperCase_ascii host) by reflexivity. reflexivity.
Qed.

Lemma keys_PAPER_FORMAT (host : Host) :
  map (toUpperCase host) (Object_values PAPER_FORMAT)
  = Object_keys PAPER_FORMAT.
Proof.
  simpl. rewrite !(toUpperCase_ascii host) by reflexivity. reflexivity.
Qed.

Lemma known_by_key (host : Host) (known : list string) (s : string) :
  known_ignoring_case host known s
  = mem (toUpperCase host s) (map (toUpperCase host) known).
Proof.
  unfold known_ignoring_case, mem.
  induction known as [|v r IH]; simpl; [reflexivity|].
  rewrite IH. reflexivity.
Qed.

Lemma in_ORIENTATION (host : Host) (s : string) :
  js_in (toUpperCase host s) ORIENTATION
  = known_ignoring_case host (Object_values ORIENTATION) s.
Proof.
  unfold js_in. rewrite upper_not_inherited, orb_false_r.
  rewrite known_by_key, keys_ORIENTATION. reflexivity.
Qed.

Lemma in_PAPER_FORMAT (host : Host) (s : string) :
  js_in (toUpperCase host s) PAPER_FORMAT
  = known_ignoring_case host (Object_values PAPER_FORMAT) s.
Proof.
  unfold js_in. rewrite upper_not_inherited, orb_false_r.
  rewrite known_by_key, keys_PAPER_FORMAT. reflexivity.
Qed.

(* ------------------------------------------------------------------ *)
(** ** Rejected assignments *)

(** C5 fails as stated.  The setters compare [toUpperCase()] of the input
    with the keys of the table, and [toUpperCase()] maps the dotless i
    (U+0131) to I: 'portra' + U+0131 + 't' and 'tablo' + U+0131 + 'd' match
    no known value ignoring the case of letters, yet both are accepted and
    stored as 'PORTRAIT' and 'TABLOID'. *)
Lemma dotless_i_accepted :
  let orientation := "portra" ++ dotless_i ++ "t" in
  let format := "tablo" ++ dotless_i ++ "d" in
  let o := set_paperOrientation dotless_host orientation (constructor None) in
  let f := set_paperFormat dotless_host format (constructor None) in
  existsb (same_ignoring_ascii_case orientation) (Object_values ORIENTATION)
  = false
  /\ existsb (same_ignoring_ascii_case format) (Object_values PAPER_FORMAT)
     = false
  /\ fst o = Normal tt /\ paperOrientation (snd o) = "PORTRAIT"
  /\ fst f = Normal tt /\ paperFormat (snd f) = "TABLOID".
Proof. repeat split; vm_compute; reflexivity. Qed.

(** C5, amended: an input whose [toUpperCase()] differs from that of every
    known orientation makes the [paperOrientation] setter throw an error
    whose message lists the allowed orientations, an input whose
    [toUpperCase()] differs from that of every known format makes the
    [paperFormat] setter throw an error whose message lists the allowed
    formats, and in both cases the instance is left exactly as it was. *)
Theorem invalid_value_rejected
    (host : Host) (this : PrintLayout) (orientation format : string) :
  known_ignoring_case host (Object_values ORIENTATION) orientation = false ->
  known_ignoring_case host (Object_values PAPER_FORMAT) format = false ->
  set_paperOrientation host orientation this
  = (Throw (Error "orientaion must be one of: portrait,landscape"), this)
  /\ set_paperFormat host format this
     = (Throw (Error
          "paperFormat must be on of: A4,A3,A2,A1,A0,LETTER,TABLOID,BROADSHEET"),
        this).
Proof.
  intros Ho Hf. split.
  - unfold set_paperOrientation. rewrite in_ORIENTATION, Ho. reflexivity.
  - unfold set_paperFormat. rewrite in_PAPER_FORMAT, Hf. reflexivity.
Qed.

Lemma invalid_value_rejected_witness :
  set_paperOrientation sample_host "diagonal" (constructor None)
  = (Throw (Error "orientaion must be one of: portrait,landscape"),
     constructor None)
  /\ set_paperFormat sample_host "A5" (constructor None)
     = (Throw (Error
          "paperFormat must be on of: A4,A3,A2,A1,A0,LETTER,TABLOID,BROADSHEET"),
        constructor None).
Proof.
  apply (invalid_value_rejected sample_host (constructor None) "diagonal" "A5");
    reflexivity.
Defined.

(* ------------------------------------------------------------------ *)
(** ** Without a host map *)

(** C6: while [getMap()] yields nothing, the [bbox] getter, the
    [bboxAsLonLat] getter and [getPrintMapScaleDenominator] each return
    [null] without throwing (and without touching the instance), whatever
    the stored format, orientation and margins. *)
Theorem null_without_map (host : Host) (this : PrintLayout) :
  truthy (getMap this) = false ->
  bbox host this = (Normal null, this)
  /\ bboxAsLonLat host this = (Normal null, this)
  /\ getPrintMapScaleDenominator host this = (Normal null, this).
Proof.
  intros Hmap.
  assert (Hb : bbox host this = (Normal null, this)).
  { unfold bbox, bind, gets, ret. destruct (getMap this); try reflexivity.
    discriminate Hmap. }
  assert (Hl : bboxAsLonLat host this = (Normal null, this)).
  { unfold bboxAsLonLat, bind. rewrite Hb. reflexivity. }
  repeat split; try assumption.
  unfold getPrintMapScaleDenominator, bind. rewrite Hl. reflexivity.
Qed.

Lemma null_without_map_witness :
  bbox sample_host (constructor None) = (Normal null, constructor None)
  /\ bboxAsLonLat sample_host (constructor None)
     = (Normal null, constructor None)
  /\ getPrintMapScaleDenominator sample_host (constructor None)
     = (Normal null, constructor None).
Proof.
  apply (null_without_map sample_host (constructor None)). reflexivity.
Defined.

(* ------------------------------------------------------------------ *)
(** ** The printable size *)

(** [getPrintBoxSizeInMM] reads nothing but the stored configuration. *)
Lemma getPrintBoxSizeInMM_configuration (this this' : PrintLayout) :
  configuration this' = configuration this ->
  getPrintBoxSizeInMM this' = getPrintBoxSizeInMM this.
Proof.
  unfold configuration, getPrintBoxSizeInMM, paperFormat, paperOrientation,
    margins.
  intros H. injection H as Ho Hf Hm. rewrite Ho, Hf, Hm. reflexivity.
Qed.

(** C7: with format 'A4', orientation 'portrait' and margins of 2 cm on
    every side stored, [getPrintBoxSizeInMM] returns 170 x 257 and
    [getPrintBoxSizeInDots(192)] (also with the argument left out) returns
    1285 x 1943. *)
Theorem a4_portrait_example (this : PrintLayout) :
  paperFormat this = "A4" ->
  paperOrientation this = "portrait" ->
  margins this = {| top := of_Z 2; bottom := of_Z 2;
                    left := of_Z 2; right := of_Z 2 |} ->
  getPrintBoxSizeInMM this
  = Normal {| width := of_Z 170; height := of_Z 257 |}
  /\ getPrintBoxSizeInDots (Some (of_Z 192)) this
     = Normal {| width := of_Z 1285; height := of_Z 1943 |}
  /\ getPrintBoxSizeInDots None this
     = Normal {| width := of_Z 1285; height := of_Z 1943 |}.
Proof.
  intros Hf Ho Hm.
  assert (Hmm : getPrintBoxSizeInMM this
                = Normal {| width := of_Z 170; height := of_Z 257 |}).
  { unfold getPrintBoxSizeInMM. rewrite Hf, Ho, Hm. vm_compute. reflexivity. }
  unfold getPrintBoxSizeInDots. rewrite Hmm.
  repeat split; vm_compute; reflexivity.
Qed.

Lemma a4_portrait_example_witness :
  getPrintBoxSizeInMM (constructor None)
  = Normal {| width := of_Z 170; height := of_Z 257 |}
  /\ getPrintBoxSizeInDots (Some (of_Z 192)) (constructor None)
     = Normal {| width := of_Z 1285; height := of_Z 1943 |}
  /\ getPrintBoxSizeInDots None (constructor None)
     = Normal {| width := of_Z 1285; height := of_Z 1943 |}.
Proof.
  apply (a4_portrait_example (constructor None)); reflexivity.
Defined.

(* ------------------------------------------------------------------ *)
(** ** What the orientation setter stores *)

(** C2: assigning 'portrait' (or 'Landscape') to [paperOrientation] returns
    normally, but the value stored and read back by the getter is the
    upper-cased input, 'PORTRAIT' (or 'LANDSCAPE'), which is a key of
    [ORIENTATION] and none of its values. *)
Theorem orientation_stored_upper_case (host : Host) :
  let assigned (s : string) :=
    set_paperOrientation host s (constructor None) in
  fst (assigned "portrait") = Normal tt
  /\ paperOrientation (snd (assigned "portrait")) = "PORTRAIT"
  /\ fst (assigned "Landscape") = Normal tt
  /\ paperOrientation (snd (assigned "Landscape")) = "LANDSCAPE"
  /\ mem "PORTRAIT" (Object_values ORIENTATION) = false
  /\ mem "LANDSCAPE" (Object_values ORIENTATION) = false.
Proof.
  cbv zeta. unfold set_paperOrientation.
  rewrite !(toUpperCase_ascii host) by reflexivity.
  repeat split; vm_compute; reflexivity.
Qed.

(** C1: on a default instance (A4, margins of 2 cm), assigning 'portrait'
    to [paperOrientation] keeps format and margins, yet
    [getPrintBoxSizeInMM] then takes the width from the long edge
    (297 - 40) and the height from the short edge (210 - 40), as it does
    after assigning 'landscape'. *)
Theorem portrait_assignment_measures_landscape (host : Host) :
  let fresh := constructor None in
  let portrait := snd (set_paperOrientation host "portrait" fresh) in
  let landscape := snd (set_paperOrientation host "landscape" fresh) in
  getPrintBoxSizeInMM fresh
  = Normal {| width := of_Z 170; height := of_Z 257 |}
  /\ paperFormat portrait = paperFormat fresh
  /\ margins portrait = margins fresh
  /\ getPrintBoxSizeInMM portrait
     = Normal {| width := of_Z 257; height := of_Z 170 |}
  /\ getPrintBoxSizeInMM landscape
     = Normal {| width := of_Z 257; height := of_Z 170 |}.
Proof.
  cbv zeta. unfold set_paperOrientation.
  rewrite !(toUpperCase_ascii host) by reflexivity.
  repeat split; vm_compute; reflexivity.
Qed.

(* ------------------------------------------------------------------ *)
(** ** Margins given to the constructor *)

(** C3: [new PrintLayout({margins: {top: -1, bottom: 2, left: 2, right: 2}})]
    stores the top margin -1, which is below zero. *)
Theorem constructor_keeps_negative_margin :
  let this :=
    constructor (with_margins_option
      {| top := of_Z (-1); bottom := of_Z 2;
         left := of_Z 2; right := of_Z 2 |}) in
  top (margins this) = of_Z (-1)
  /\ Negative (top (margins this))
  /\ lt (top (margins this)) (of_Z 0) = true.
Proof.
  repeat split.
Qed.

(* ------------------------------------------------------------------ *)
(** ** What a method leaves untouched *)

Section Frames.

Context {X : Type} (f : PrintLayout -> X).

Lemma preserves_ret {A} (a : A) : preserves f (ret a).
Proof. intros this. reflexivity. Qed.

Lemma preserves_throw {A} (e : exn) : preserves f (@throw A e).
Proof. intros this. reflexivity. Qed.

Lemma preserves_gets {A} (g : PrintLayout -> A) : preserves f (gets g).
Proof. intros this. reflexivity. Qed.

Lemma preserves_reading {A} (g : PrintLayout -> completion A) :
  preserves f (reading g).
Proof. intros this. reflexivity. Qed.

Lemma preserves_modify (g : PrintLayout -> PrintLayout) :
  (forall this, f (g this) = f this) -> preserves f (modify g).
Proof. intros H this. apply H. Qed.

Lemma preserves_bind {A B} (c : M A) (k : A -> M B) :
  preserves f c -> (forall a, preserves f (k a)) -> preserves f (bind c k).
Proof.
  intros Hc Hk this. unfold bind.
  specialize (Hc this).
  destruct (c this) as [[a|e] this']; simpl in *.
  - rewrite Hk. exact Hc.
  - exact Hc.
Qed.

End Frames.

(** Break a method into its steps; what is left are the writes. *)
Ltac frame :=
  repeat first
    [ apply preserves_ret
    | apply preserves_throw
    | apply preserves_gets
    | apply preserves_reading
    | apply preserves_bind; [|intro]
    | apply preserves_modify; intro; reflexivity
    | match goal with
      | |- preserves _ (if ?b then _ else _) => destruct b
      | |- preserves _ (match ?v with _ => _ end) => destruct v
      end ].

Section Untouched.

Variable host : Host.


Lemma setElementSize_attachment : preserves attachment (setElementSize host).
Proof. unfold setElementSize, set_inset. frame. Qed.

Lemma handleBboxChange_configuration :
  preserves configuration (handleBboxChange host).
Proof. unfold handleBboxChange, set_bbox, changed, emit. frame. Qed.

Lemma handleBboxChange_attachment :
  preserves attachment (handleBboxChange host).
Proof. unfold handleBboxChange, set_bbox, changed, emit. frame. Qed.

Lemma onRender_configuration : preserves configuration (onRender host).
Proof.
  intros this. unfold onRender.
  destruct (negb (truthy (_map this))
            || negb (same_ref (_map this) (getMap this))); [|reflexivity].
  revert this.
  change (preserves configuration
    (modify (fun this => with__map (getMap this) this) ;;
     m <- reading (fun this =>
            match getMap this with
            | val m => Normal m
            | _ => Throw TypeError
            end) ;;
     register (ViewChange m) ;;
     register (MapSizeChange m) ;;
     register (ControlsRemoveOnce m) ;;
     setElementSize host ;;
     set_bbox host ;;
     emit DispatchChange)).
  unfold register, set_bbox, emit. frame.
Qed.

Lemma renderSync_configuration (m : Map) :
  preserves configuration (renderSync host m).
Proof. unfold renderSync, emit. frame. apply onRender_configuration. Qed.

Lemma relayout_configuration : preserves configuration (relayout host).
Proof.
  unfold relayout, changed, emit. frame. apply onRender_configuration.
Qed.

End Untouched.

(** Whatever the layout step does next, an accepted assignment has stored
    the upper-cased input, and no upper-cased string is
    [ORIENTATION.PORTRAIT]. *)
Lemma accepted_orientation_is_not_PORTRAIT
    (host : Host) (this : PrintLayout) (s : string) :
  js_in (toUpperCase host s) ORIENTATION = true ->
  paperOrientation (snd (set_paperOrientation host s this))
  = toUpperCase host s
  /\ String.eqb (toUpperCase host s) ORIENTATION_PORTRAIT = false.
Proof.
  intros Hin. split.
  - unfold set_paperOrientation. rewrite Hin.
    change (paperOrientation
              (snd (relayout host
                      (with_orientation (toUpperCase host s) this)))
            = toUpperCase host s).
    pose proof (relayout_configuration host
                  (with_orientation (toUpperCase host s) this)) as H.
    unfold configuration in H. injection H as H _ _. exact H.
  - destruct (String.eqb (toUpperCase host s) ORIENTATION_PORTRAIT) eqn:E;
      [|reflexivity].
    apply String.eqb_eq in E.
    pose proof (toUpperCase_no_lower host s) as L.
    rewrite E in L. discriminate L.
Qed.

(* ------------------------------------------------------------------ *)
(** ** The attach guard of the render callback *)

Lemma bind_modify {B} (g : PrintLayout -> PrintLayout) (k : unit -> M B)
    (this : PrintLayout) :
  bind (modify g) k this = k tt (g this).
Proof. reflexivity. Qed.

Lemma bind_gets {A B} (g : PrintLayout -> A) (k : A -> M B)
    (this : PrintLayout) :
  bind (gets g) k this = k (g this) this.
Proof. reflexivity. Qed.

Lemma same_ref_val (r : nullable Map) (m : Map) :
  same_ref r (val m) = true <-> r = val m.
Proof.
  destruct r as [| |m']; simpl; split; intros H; try discriminate.
  - apply Nat.eqb_eq in H. subst. reflexivity.
  - injection H as ->. apply Nat.eqb_refl.
Qed.

Section Attach.

Variable host : Host.

(** Attached to the map it is on, the instance ignores a render pass. *)
Lemma onRender_attached (this : PrintLayout) (m : Map) :
  getMap this = val m -> _map this = val m ->
  onRender host this = (Normal tt, this).
Proof.
  intros Hg Hm. unfold onRender. rewrite Hg, Hm. simpl.
  rewrite Nat.eqb_refl. reflexivity.
Qed.

(** The first render pass on a map other than the remembered one. *)
Lemma onRender_attaches (this : PrintLayout) (m : Map) :
  getMap this = val m -> same_ref (_map this) (val m) = false ->
  attachment (snd (onRender host this))
  = (val m, val m,
     (listeners this
      ++ [ViewChange m; MapSizeChange m; ControlsRemoveOnce m])%list).
Proof.
  intros Hg Hm. unfold onRender. rewrite Hg, Hm, orb_true_r.
  rewrite bind_modify. unfold bind at 1, reading.
  unfold getMap in *. simpl map_. rewrite Hg.
  unfold register. rewrite !bind_modify.
  match goal with
  | |- attachment (snd (?c ?s)) = _ =>
      assert (P : preserves attachment c)
        by (unfold set_bbox, emit; frame);
      rewrite (P s)
  end.
  unfold attachment. simpl. rewrite Hg, <- !app_assoc. reflexivity.
Qed.

Lemma steady_of_preserves {A} (a : nullable Map * nullable Map * list Listener)
    (c : M A) :
  preserves attachment c -> steady a c.
Proof. intros H this <-. apply H. Qed.

Lemma steady_bind {A B} (a : nullable Map * nullable Map * list Listener)
    (c : M A) (k : A -> M B) :
  steady a c -> (forall x, steady a (k x)) -> steady a (bind c k).
Proof.
  intros Hc Hk this Ha. unfold bind.
  specialize (Hc this Ha).
  destruct (c this) as [[x|e] this']; simpl in *.
  - apply Hk. exact Hc.
  - exact Hc.
Qed.

Lemma onRender_steady (m : Map) (ls : list Listener) :
  steady (val m, val m, ls) (onRender host).
Proof.
  intros this Ha. unfold attachment in Ha. injection Ha as H1 H2 H3.
  rewrite (onRender_attached this m H1 H2). simpl.
  unfold attachment. rewrite H1, H2, H3. reflexivity.
Qed.

End Attach.

Section Attached.

Variable host : Host.
Variable m : Map.
Variable ls : list Listener.

Lemma renderSync_steady (m' : Map) :
  steady (val m, val m, ls) (renderSync host m').
Proof.
  unfold renderSync, emit.
  apply steady_bind; [apply steady_of_preserves; frame|intros _].
  apply onRender_steady.
Qed.

Lemma handleBboxChange_steady :
  steady (val m, val m, ls) (handleBboxChange host).
Proof. apply steady_of_preserves, handleBboxChange_attachment. Qed.

Lemma setElementSize_steady :
  steady (val m, val m, ls) (setElementSize host).
Proof. apply steady_of_preserves, setElementSize_attachment. Qed.

Lemma relayout_steady : steady (val m, val m, ls) (relayout host).
Proof.
  unfold relayout, changed.
  apply steady_bind; [apply setElementSize_steady|intros _].
  apply steady_bind; [apply steady_of_preserves; frame|intros mp].
  apply steady_bind; [|intros _; apply steady_of_preserves; unfold emit; frame].
  destruct mp; try solve [apply steady_of_preserves; frame].
  apply steady_bind; [apply renderSync_steady|intros _].
  apply handleBboxChange_steady.
Qed.

Lemma bbox_steady : steady (val m, val m, ls) (bbox host).
Proof.
  unfold bbox.
  apply steady_bind; [apply steady_of_preserves; frame|intros mp].
  destruct mp; try solve [apply steady_of_preserves; frame].
  apply steady_bind; [apply renderSync_steady|intros _].
  apply steady_of_preserves; frame.
Qed.

Lemma bboxAsLonLat_steady : steady (val m, val m, ls) (bboxAsLonLat host).
Proof.
  unfold bboxAsLonLat.
  apply steady_bind; [apply bbox_steady|intros b].
  destruct (truthy b); [|apply steady_of_preserves; frame].
  apply steady_bind; [apply bbox_steady|intros b'].
  destruct b'; apply steady_of_preserves; frame.
Qed.

Lemma perform_steady (c : Call) (this : PrintLayout) :
  attachment this = (val m, val m, ls) ->
  attachment (perform host c this) = (val m, val m, ls).
Proof.
  intros Ha.
  assert (S : forall A (c : M A),
             steady (val m, val m, ls) c ->
             attachment (snd (c this)) = (val m, val m, ls))
    by (intros A c' H; exact (H this Ha)).
  destruct c; unfold perform; apply S; clear S Ha this.
  - apply onRender_steady.
  - apply handleBboxChange_steady.
  - unfold onChangeSize.
    apply steady_bind; [apply setElementSize_steady|intros _].
    apply handleBboxChange_steady.
  - unfold set_paperOrientation.
    destruct (js_in _ _); [|apply steady_of_preserves; frame].
    apply steady_bind; [apply steady_of_preserves; frame|intros _].
    apply relayout_steady.
  - unfold set_paperFormat.
    destruct (js_in _ _); [|apply steady_of_preserves; frame].
    apply steady_bind; [apply steady_of_preserves; frame|intros _].
    apply relayout_steady.
  - unfold set_margins.
    destruct margins0; try solve [apply steady_of_preserves; frame].
    apply steady_bind; [apply steady_of_preserves; frame|intros _].
    apply relayout_steady.
  - apply bbox_steady.
  - apply bboxAsLonLat_steady.
  - unfold getPrintMapScaleDenominator.
    apply steady_bind; [apply bboxAsLonLat_steady|intros b].
    destruct (negb (truthy b)); [apply steady_of_preserves; frame|].
    apply steady_bind; [apply bboxAsLonLat_steady|intros b'].
    destruct b'; apply steady_of_preserves; frame.
Qed.

Lemma run_steady (calls : list Call) (this : PrintLayout) :
  attachment this = (val m, val m, ls) ->
  attachment (run host calls this) = (val m, val m, ls).
Proof.
  revert this. induction calls as [|c calls IH]; intros this Ha; simpl.
  - exact Ha.
  - apply IH. apply perform_steady. exact Ha.
Qed.

End Attached.

Lemma render_times_attached (host : Host) (m : Map) (n : nat)
    (this : PrintLayout) :
  getMap this = val m -> _map this = val m ->
  render_times host n this = this.
Proof.
  intros Hg Hm. induction n as [|n IH]; simpl.
  - reflexivity.
  - rewrite (onRender_attached host this m Hg Hm). exact IH.
Qed.

(** C9: let [attached] be the instance after a render callback on host map
    [m].  That callback registered the view-change and the size-change
    listener (and the one-shot removal listener) once if [m] was not the
    remembered map, and nothing if it was.  From then on a render callback
    returns at once and leaves the instance exactly as it is, however often
    it is repeated, and no mix of render callbacks, listener calls, setter
    calls and getter calls changes the remembered map or the registered
    listeners. *)
Theorem render_registers_once
    (host : Host) (this : PrintLayout) (m : Map) (n : nat)
    (calls : list Call) :
  getMap this = val m ->
  let attached := snd (onRender host this) in
  listeners attached
  = (if same_ref (_map this) (val m)
     then listeners this
     else listeners this
          ++ [ViewChange m; MapSizeChange m; ControlsRemoveOnce m])%list
  /\ onRender host attached = (Normal tt, attached)
  /\ render_times host n attached = attached
  /\ attachment (run host calls attached) = attachment attached.
Proof.
  intros Hg attached.
  assert (Ha : attachment attached
               = (val m, val m, listeners attached)
               /\ listeners attached
                  = (if same_ref (_map this) (val m)
                     then listeners this
                     else listeners this
                          ++ [ViewChange m; MapSizeChange m;
                              ControlsRemoveOnce m])%list).
  { subst attached. destruct (same_ref (_map this) (val m)) eqn:E.
    - apply same_ref_val in E.
      rewrite (onRender_attached host this m Hg E). simpl.
      unfold attachment. unfold getMap in Hg. rewrite Hg, E. split; reflexivity.
    - pose proof (onRender_attaches host this m Hg E) as H.
      unfold attachment in H |- *. injection H as H1 H2 H3.
      rewrite H1, H2, H3. split; reflexivity. }
  destruct Ha as [Ha Hl].
  assert (Hg' : getMap attached = val m)
    by (unfold attachment in Ha; injection Ha as H1 H2; exact H1).
  assert (Hm' : _map attached = val m)
    by (unfold attachment in Ha; injection Ha as H1 H2; exact H2).
  repeat split.
  - exact Hl.
  - apply (onRender_attached host attached m Hg' Hm').
  - apply (render_times_attached host m n attached Hg' Hm').
  - rewrite Ha. apply run_steady. exact Ha.
Qed.

Lemma render_registers_once_witness :
  let attached := snd (onRender sample_host (added_to 1%nat (constructor None))) in
  listeners attached = [ViewChange 1%nat; MapSizeChange 1%nat; ControlsRemoveOnce 1%nat]
  /\ onRender sample_host attached = (Normal tt, attached)
  /\ render_times sample_host 3%nat attached = attached
  /\ attachment
       (run sample_host [Render; SetFormat "a3"; GetBbox; Render] attached)
     = attachment attached.
Proof.
  apply (render_registers_once sample_host (added_to 1%nat (constructor None))
           1%nat 3%nat [Render; SetFormat "a3"; GetBbox; Render]).
  reflexivity.
Defined.

(** From construction: once the new instance has been added to map [m]
    and rendered, each of the two listeners is registered on [m] exactly
    once, whatever is called next while it stays there. *)
Lemma fresh_instance_registers_once
    (host : Host) (options : option Options.t) (m : Map)
    (calls : list Call) :
  let attached := snd (onRender host (added_to m (constructor options))) in
  registered (ViewChange m) (run host calls attached) = 1%nat
  /\ registered (MapSizeChange m) (run host calls attached) = 1%nat.
Proof.
  intros attached.
  assert (A : attachment attached
              = (val m, val m,
                 [ViewChange m; MapSizeChange m; ControlsRemoveOnce m])).
  { subst attached. apply (onRender_attaches host); reflexivity. }
  pose proof (run_steady host m _ calls attached A) as R.
  unfold attachment in R. injection R as _ _ R.
  unfold registered. rewrite R. simpl. rewrite Nat.eqb_refl. split; reflexivity.
Qed.

(* ------------------------------------------------------------------ *)
(** ** Binary64 facts *)

(** A number is determined by its sign, mantissa and exponent. *)
Lemma of_Prim2SF (x : number) (v : spec_float) :
  Prim2SF x = v -> x = SF2Prim v.
Proof. intros <-. symmetry. apply SF2Prim_Prim2SF. Qed.

(** Rounding a quotient or a product keeps the sign it was given, unless
    it gives up with [NaN]. *)
Lemma binary_round_aux_sign (s : bool) (m e : Z) (l : location) :
  let r := binary_round_aux prec emax s m e l in
  r = S754_zero s \/ (exists m' e', r = S754_finite s m' e')
  \/ r = S754_infinity s \/ r = S754_nan.
Proof.
  unfold binary_round_aux.
  destruct (shr_fexp prec emax m e l) as [mrs' e'].
  destruct (shr_fexp prec emax _ e' loc_Exact) as [mrs'' e''].
  destruct (shr_m mrs'') as [|p|p].
  - left. reflexivity.
  - destruct (e'' <=? emax - prec)%Z.
    + right. left. eexists. eexists. reflexivity.
    + right. right. left. reflexivity.
  - right. right. right. reflexivity.
Qed.

(** The numbers above zero. *)
Lemma above_zero (x : number) :
  lt (of_Z 0) x = true ->
  (exists m e, Prim2SF x = S754_finite false m e)
  \/ Prim2SF x = S754_infinity false.
Proof.
  unfold lt. rewrite ltb_spec.
  change (Prim2SF (of_Z 0)) with (S754_zero false).
  destruct (Prim2SF x) as [s|[]| |[] m e]; try discriminate.
  - right. reflexivity.
  - left. exists m, e. reflexivity.
Qed.

(** The numbers below zero. *)
Lemma below_zero (x : number) :
  lt x (of_Z 0) = true <->
  (exists m e, Prim2SF x = S754_finite true m e)
  \/ Prim2SF x = S754_infinity true.
Proof.
  unfold lt. rewrite ltb_spec.
  change (Prim2SF (of_Z 0)) with (S754_zero false).
  split.
  - destruct (Prim2SF x) as [s|[]| |[] m e]; try discriminate.
    + right. reflexivity.
    + left. exists m, e. reflexivity.
  - intros [[m [e ->]]| ->]; reflexivity.
Qed.

(** The two zeros. *)
Lemma equal_zero (x : number) :
  strict_eq x (of_Z 0) = true <-> exists s, Prim2SF x = S754_zero s.
Proof.
  unfold strict_eq. rewrite eqb_spec.
  change (Prim2SF (of_Z 0)) with (S754_zero false).
  split.
  - destruct (Prim2SF x) as [s|[]| |[] m e]; try discriminate.
    exists s. reflexivity.
  - intros [s ->]. reflexivity.
Qed.

(** A zero divided by 1000 is a zero. *)
Lemma zero_width_in_m (w : number) :
  strict_eq w (of_Z 0) = true ->
  exists s, Prim2SF (div w (of_Z 1000)) = S754_zero s.
Proof.
  intros H. apply equal_zero in H. destruct H as [s H].
  unfold div. rewrite div_spec, H.
  exists s. destruct s; vm_compute; reflexivity.
Qed.

(** A number above zero divided by a zero is infinite. *)
Lemma div_by_zero (d z : number) :
  lt (of_Z 0) d = true -> (exists s, Prim2SF z = S754_zero s) ->
  div d z = Infinity \/ div d z = NegInfinity.
Proof.
  intros Hd [s Hz].
  assert (E : Prim2SF (div d z) = S754_infinity s).
  { unfold div. rewrite div_spec, Hz.
    destruct (above_zero d Hd) as [[m [e ->]]| ->]; destruct s; reflexivity. }
  apply of_Prim2SF in E. rewrite E.
  destruct s; [right | left]; reflexivity.
Qed.

(** A number below zero divided by 1000 has the sign bit set, or is
    [NaN]. *)
Lemma negative_width_in_m (w : number) :
  lt w (of_Z 0) = true ->
  let q := Prim2SF (div w (of_Z 1000)) in
  q = S754_zero true \/ (exists m e, q = S754_finite true m e)
  \/ q = S754_infinity true \/ q = S754_nan.
Proof.
  intros H q. subst q. apply below_zero in H.
  unfold div. rewrite div_spec.
  replace (Prim2SF (of_Z 1000))
    with (S754_finite false 8796093022208000 (-43))
    by (vm_compute; reflexivity).
  destruct H as [[m [e ->]]| ->].
  - unfold SF64div, SFdiv.
    destruct (SFdiv_core_binary prec emax (Z.pos m) e
                (Z.pos 8796093022208000) (-43)) as [[mz ez] lz].
    apply (binary_round_aux_sign (xorb true false) mz ez lz).
  - right. right. left. reflexivity.
Qed.

(** A number above zero divided by one with the sign bit set is below
    zero, the negative zero or [NaN]. *)
Lemma div_by_negative (d z : number) :
  lt (of_Z 0) d = true ->
  (Prim2SF z = S754_zero true \/ (exists m e, Prim2SF z = S754_finite true m e)
   \/ Prim2SF z = S754_infinity true \/ Prim2SF z = S754_nan) ->
  lt (div d z) (of_Z 0) = true \/ div d z = neg_zero \/ div d z = NaN.
Proof.
  intros Hd Hz.
  assert (E : Prim2SF (div d z) = S754_zero true
              \/ (exists m e, Prim2SF (div d z) = S754_finite true m e)
              \/ Prim2SF (div d z) = S754_infinity true
              \/ Prim2SF (div d z) = S754_nan).
  { unfold div. rewrite div_spec.
    destruct (above_zero d Hd) as [[m [e ->]]| ->];
      destruct Hz as [-> | [[m' [e' ->]] | [-> | ->]]];
      try solve [ left; reflexivity
                | right; right; left; reflexivity
                | right; right; right; reflexivity ].
    unfold SF64div, SFdiv.
    destruct (SFdiv_core_binary prec emax (Z.pos m) e (Z.pos m') e')
      as [[mz ez] lz].
    apply (binary_round_aux_sign (xorb false true) mz ez lz). }
  destruct E as [E | [[m [e E]] | [E | E]]].
  - right. left. apply of_Prim2SF in E. exact E.
  - left. apply below_zero. left. exists m, e. exact E.
  - left. apply below_zero. right. exact E.
  - right. right. apply of_Prim2SF in E. exact E.
Qed.

(** A finite number times zero is a zero; an infinite one or [NaN] times
    zero is [NaN]. *)
Lemma mul_zero (k : number) :
  if isFinite k
  then exists s, Prim2SF (mul k (of_Z 0)) = S754_zero s
  else mul k (of_Z 0) = NaN.
Proof.
  unfold isFinite, mul.
  pose proof (mul_spec k (of_Z 0)) as E.
  change (Prim2SF (of_Z 0)) with (S754_zero false) in E.
  destruct (Prim2SF k) as [s|s| |s m e].
  - eexists. exact E.
  - apply of_Prim2SF in E. exact E.
  - apply of_Prim2SF in E. exact E.
  - eexists. exact E.
Qed.

(** [Math.round] keeps the zeros and [NaN]. *)
Lemma Math_round_zero (x : number) (s : bool) :
  Prim2SF x = S754_zero s -> Math_round x = x.
Proof. intros H. unfold Math_round. rewrite H. reflexivity. Qed.

(* ------------------------------------------------------------------ *)
(** ** Methods that return normally *)

Section Ensures.

Context (I : PrintLayout -> Prop).

Lemma ensures_ret {A} (a : A) : ensures I (ret a).
Proof. intros this H. split; [exists a; reflexivity | exact H]. Qed.

Lemma ensures_gets {A} (g : PrintLayout -> A) : ensures I (gets g).
Proof. intros this H. split; [exists (g this); reflexivity | exact H]. Qed.

Lemma ensures_modify (g : PrintLayout -> PrintLayout) :
  (forall this, I this -> I (g this)) -> ensures I (modify g).
Proof. intros Hg this H. split; [exists tt; reflexivity | apply Hg, H]. Qed.

Lemma ensures_reading {A} (g : PrintLayout -> completion A) :
  (forall this, I this -> exists a, g this = Normal a) ->
  ensures I (reading g).
Proof. intros Hg this H. split; [apply Hg, H | exact H]. Qed.

Lemma ensures_bind {A B} (c : M A) (k : A -> M B) :
  ensures I c -> (forall a, ensures I (k a)) -> ensures I (bind c k).
Proof.
  intros Hc Hk this H. unfold bind.
  destruct (Hc this H) as [[a Ha] Hi].
  destruct (c this) as [r this']. simpl in Ha, Hi. subst r.
  apply Hk. exact Hi.
Qed.

End Ensures.

(** With a format that has a size, on no map or on a displayed one, the
    layout steps return normally. *)
Section Sized.

Variable host : Host.
Variable format : string.
Variable ps : PaperSize.
Hypothesis sized : PAPER_SIZE_at format = Normal ps.
Variable mp : nullable Map.
Hypothesis shown : ready host mp.

(** Sequencing, and the writes that touch neither the format nor the map. *)
Ltac sequence :=
  repeat first
    [ apply ensures_ret
    | apply ensures_gets
    | apply ensures_bind; [|intro]
    | apply ensures_modify; intros ? H; exact H ].

Lemma getPrintMarginsInPx_sized (this : PrintLayout) :
  placed format mp this -> exists px, getPrintMarginsInPx host this = Normal px.
Proof.
  intros [Hf _]. unfold getPrintMarginsInPx, paperFormat.
  rewrite Hf, sized. eexists. reflexivity.
Qed.

Lemma getScreenMapAspectRatio_shown (this : PrintLayout) :
  placed format mp this ->
  exists r, getScreenMapAspectRatio host this = Normal r.
Proof.
  intros [_ Hm]. unfold getScreenMapAspectRatio, getMap. rewrite Hm.
  destruct mp as [| |m]; try (eexists; reflexivity).
  destruct shown as [[[w h] ->] _]. eexists. reflexivity.
Qed.

Lemma getRestrictingDimension_sized (this : PrintLayout) :
  placed format mp this ->
  exists d, getRestrictingDimension host this = Normal d.
Proof.
  intros H. destruct (getScreenMapAspectRatio_shown this H) as [r Hr].
  destruct H as [Hf _].
  unfold getRestrictingDimension, getPaperMapAspectRatio, paperFormat.
  rewrite Hr, Hf, sized. eexists. reflexivity.
Qed.

Lemma computeBbox_shown (this : PrintLayout) :
  placed format mp this -> exists b, computeBbox host this = Normal b.
Proof.
  intros [_ Hm]. unfold computeBbox, getMap. rewrite Hm.
  destruct mp as [| |m]; try (eexists; reflexivity).
  destruct shown as [_ C].
  match goal with
  | |- context [getCoordinateFromPixel host m ?p] =>
      destruct (C p) as [c1 ->]
  end.
  match goal with
  | |- context [getCoordinateFromPixel host m ?p] =>
      destruct (C p) as [c2 ->]
  end.
  eexists. reflexivity.
Qed.

Lemma setElementSize_sized : ensures (placed format mp) (setElementSize host).
Proof.
  unfold setElementSize, set_inset.
  apply ensures_bind;
    [apply ensures_reading, getRestrictingDimension_sized | intro].
  apply ensures_bind; [sequence | intro].
  apply ensures_bind.
  { apply ensures_reading. intros this [Hf _]. unfold paperFormat.
    rewrite Hf, sized. eexists. reflexivity. }
  intro. apply ensures_bind; [sequence | intro].
  repeat (apply ensures_bind;
          [apply ensures_bind;
             [apply ensures_reading, getPrintMarginsInPx_sized
             | intro; sequence]
          | intro]).
  apply ensures_bind;
    [apply ensures_reading, getPrintMarginsInPx_sized | intro; sequence].
Qed.

Lemma set_bbox_sized : ensures (placed format mp) (set_bbox host).
Proof.
  unfold set_bbox.
  apply ensures_bind; [apply ensures_reading, computeBbox_shown | intro].
  sequence.
Qed.

Lemma handleBboxChange_sized :
  ensures (placed format mp) (handleBboxChange host).
Proof.
  unfold handleBboxChange, changed, emit.
  apply ensures_bind; [apply set_bbox_sized | intro]. sequence.
Qed.

Lemma onRender_sized (m : Map) :
  mp = val m -> ensures (placed format mp) (onRender host).
Proof.
  intros Emp this H. unfold onRender.
  destruct (negb (truthy (_map this))
            || negb (same_ref (_map this) (getMap this)));
    [|split; [exists tt; reflexivity | exact H]].
  revert this H.
  change (ensures (placed format mp)
    (modify (fun this => with__map (getMap this) this) ;;
     m <- reading (fun this =>
            match getMap this with
            | val m => Normal m
            | _ => Throw TypeError
            end) ;;
     register (ViewChange m) ;;
     register (MapSizeChange m) ;;
     register (ControlsRemoveOnce m) ;;
     setElementSize host ;;
     set_bbox host ;;
     emit DispatchChange)).
  unfold register, emit.
  apply ensures_bind; [sequence | intro].
  apply ensures_bind.
  { apply ensures_reading. intros this [_ Hm]. unfold getMap.
    rewrite Hm, Emp. eexists. reflexivity. }
  intro. do 3 (apply ensures_bind; [sequence | intro]).
  apply ensures_bind; [apply setElementSize_sized | intro].
  apply ensures_bind; [apply set_bbox_sized | intro]. sequence.
Qed.

Lemma renderSync_sized (m : Map) :
  mp = val m -> ensures (placed format mp) (renderSync host m).
Proof.
  intros Emp. unfold renderSync, emit.
  apply ensures_bind; [sequence | intro; apply (onRender_sized m Emp)].
Qed.

Lemma relayout_sized : ensures (placed format mp) (relayout host).
Proof.
  unfold relayout.
  apply ensures_bind; [apply setElementSize_sized | intros _].
  assert (T : forall mp',
             mp = mp' ->
             ensures (placed format mp)
               (match mp' with
                | val m => renderSync host m ;; handleBboxChange host
                | _ => ret tt
                end ;; changed)).
  { intros mp' Emp. unfold changed, emit.
    apply ensures_bind; [|intro; sequence].
    destruct mp' as [| |m]; try apply ensures_ret.
    apply ensures_bind;
      [apply (renderSync_sized m Emp)
      | intro; apply handleBboxChange_sized]. }
  intros this H. rewrite bind_gets.
  apply T; [|exact H]. destruct H as [_ Hm]. symmetry. exact Hm.
Qed.

End Sized.

(* ------------------------------------------------------------------ *)
(** ** Assigning margins *)

Lemma clamp_negative (v : number) : Negative v -> clamp v = of_Z 0.
Proof. unfold Negative, clamp. intros ->. reflexivity. Qed.

Lemma clamp_other (v : number) : lt v (of_Z 0) = false -> clamp v = v.
Proof. unfold clamp. intros ->. reflexivity. Qed.


(** Whatever happens afterwards, the setter has stored the clamped
    record. *)
Lemma set_margins_stores (host : Host) (this : PrintLayout) (arg : Margins) :
  margins (snd (set_margins host (val arg) this)) = clamp_margins arg.
Proof.
  unfold set_margins. rewrite bind_modify.
  pose proof (relayout_configuration host (with_margins (clamp_margins arg) this))
    as H.
  unfold configuration in H. injection H as _ _ H. exact H.
Qed.

(** Each stored field is 0 for a given field below zero and the given
    field otherwise. *)
Lemma set_margins_clamps (host : Host) (this : PrintLayout) (arg : Margins)
    (side : Margins -> number) :
  In side sides ->
  let stored := side (margins (snd (set_margins host (val arg) this))) in
  (Negative (side arg) -> stored = of_Z 0)
  /\ (lt (side arg) (of_Z 0) = false -> stored = side arg).
Proof.
  intros Hin stored. subst stored. rewrite set_margins_stores.
  unfold clamp_margins. simpl in Hin.
  destruct Hin as [<-|[<-|[<-|[<-|[]]]]]; simpl;
    (split; [apply clamp_negative | apply clamp_other]).
Qed.

(** On no map, or on a displayed one, and with a stored format that is a
    key of the table of sizes, assigning a record of margins returns
    normally. *)
Lemma set_margins_returns
    (host : Host) (this : PrintLayout) (ps : PaperSize) (arg : Margins) :
  own PAPER_SIZE (paperFormat this) = Some ps ->
  ready host (getMap this) ->
  fst (set_margins host (val arg) this) = Normal tt.
Proof.
  intros Hps Hr.
  assert (S : PAPER_SIZE_at (paperFormat this) = Normal ps)
    by (unfold PAPER_SIZE_at; rewrite Hps; reflexivity).
  unfold set_margins. rewrite bind_modify.
  destruct (relayout_sized host (paperFormat this) ps S (getMap this) Hr
              (with_margins (clamp_margins arg) this))
    as [[[] E] _]; [split; reflexivity | exact E].
Qed.

(** C4: assigning [undefined] or [null] to [margins] does nothing, and an
    assigned record is stored with every field below zero replaced by 0.
    But the assignment can throw: on [new PrintLayout({format: 'a4'})],
    whose format the constructor stored as given (the format setter would
    have stored 'A4'), it throws a [TypeError] once the margins are
    stored; so it does on a default instance added to a map without a
    size. *)
Theorem margins_assignment_can_throw :
  let given := {| top := of_Z 1; bottom := of_Z (-1);
                  left := of_Z 1; right := of_Z 1 |} in
  let stored := {| top := of_Z 1; bottom := of_Z 0;
                   left := of_Z 1; right := of_Z 1 |} in
  let unsized := constructor (with_format_option "a4") in
  let untargeted := added_to 1%nat (constructor None) in
  (forall host this,
     set_margins host undefined this = (Normal tt, this)
     /\ set_margins host null this = (Normal tt, this))
  /\ (forall host this arg,
        margins (snd (set_margins host (val arg) this)) = clamp_margins arg)
  /\ (forall host,
        set_margins host (val given) unsized
        = (Throw TypeError, with_margins stored unsized))
  /\ set_margins untargeted_host (val given) untargeted
     = (Throw TypeError, with_margins stored untargeted)
  /\ paperFormat unsized = "a4"
  /\ paperFormat (snd (set_paperFormat sample_host "a4" unsized)) = "A4"
  /\ fst (set_margins sample_host (val given)
            (snd (set_paperFormat sample_host "a4" unsized)))
     = Normal tt.
Proof.
  cbv zeta. split; [intros; split; reflexivity|].
  split; [intros; apply set_margins_stores|].
  split; [intros host; vm_compute; reflexivity|].
  repeat split; vm_compute; reflexivity.
Qed.

(* ------------------------------------------------------------------ *)
(** ** Size in dots *)

(** C8 fails as stated: on a default instance the width is 7 at 1 dpi and
    1285 at 192 * 1 dpi, not 192 * 7 = 1344. *)
Lemma dots_not_linear :
  getPrintBoxSizeInDots (Some (of_Z 1)) (constructor None)
  = Normal {| width := of_Z 7; height := of_Z 10 |}
  /\ getPrintBoxSizeInDots (Some (mul (of_Z 192) (of_Z 1))) (constructor None)
     = Normal {| width := of_Z 1285; height := of_Z 1943 |}
  /\ mul (of_Z 192) (of_Z 7) = of_Z 1344
  /\ strict_eq (mul (of_Z 192) (of_Z 7)) (of_Z 1285) = false.
Proof. repeat split; vm_compute; reflexivity. Qed.

(** At 0 dpi a dimension is a zero when its size in inches is finite, and
    [NaN] when that is infinite or [NaN]. *)
Lemma dots_at_zero (k : number) :
  if isFinite k
  then strict_eq (Math_round (mul k (of_Z 0))) (of_Z 0) = true
  else Math_round (mul k (of_Z 0)) = NaN.
Proof.
  pose proof (mul_zero k) as H. destruct (isFinite k).
  - destruct H as [s H]. rewrite (Math_round_zero _ s H).
    apply equal_zero. exists s. exact H.
  - rewrite H. reflexivity.
Qed.

(** C8, amended: when [getPrintBoxSizeInMM] returns a size, each dimension
    returned by [getPrintBoxSizeInDots(dpi)] is [Math.round] of the
    product of [dpi] with the size in mm divided by 25.4, a factor that
    does not depend on [dpi]; at [dpi = 0] a dimension is 0 when that
    factor is finite and [NaN] when it is not. *)
Theorem dots_round_a_product (this : PrintLayout) (mm : Size) :
  getPrintBoxSizeInMM this = Normal mm ->
  let dots (size dpi : number) :=
    Math_round (mul (div size INCH2MM) dpi) in
  (forall dpi,
     getPrintBoxSizeInDots (Some dpi) this
     = Normal {| width := dots (width mm) dpi;
                 height := dots (height mm) dpi |})
  /\ (forall size,
        In size [width mm; height mm] ->
        if isFinite (div size INCH2MM)
        then strict_eq (dots size (of_Z 0)) (of_Z 0) = true
        else dots size (of_Z 0) = NaN).
Proof.
  intros Hmm dots. split.
  - intros dpi. unfold getPrintBoxSizeInDots. rewrite Hmm. reflexivity.
  - intros size _. apply dots_at_zero.
Qed.

Lemma dots_round_a_product_witness :
  let dots (size dpi : number) :=
    Math_round (mul (div size INCH2MM) dpi) in
  (forall dpi,
     getPrintBoxSizeInDots (Some dpi) (constructor None)
     = Normal {| width := dots (of_Z 170) dpi;
                 height := dots (of_Z 257) dpi |})
  /\ (forall size,
        In size [of_Z 170; of_Z 257] ->
        if isFinite (div size INCH2MM)
        then strict_eq (dots size (of_Z 0)) (of_Z 0) = true
        else dots size (of_Z 0) = NaN).
Proof.
  apply (dots_round_a_product (constructor None)
           {| width := of_Z 170; height := of_Z 257 |}).
  vm_compute. reflexivity.
Defined.

(* ------------------------------------------------------------------ *)
(** ** The scale denominator *)

Section Scale.

Variable host : Host.

Lemma bbox_configuration : preserves configuration (bbox host).
Proof.
  unfold bbox. apply preserves_bind; [frame | intros mp].
  destruct mp; try solve [frame].
  apply preserves_bind; [apply renderSync_configuration | intro; frame].
Qed.

Lemma bboxAsLonLat_configuration : preserves configuration (bboxAsLonLat host).
Proof.
  unfold bboxAsLonLat.
  apply preserves_bind; [apply bbox_configuration | intros b].
  destruct (truthy b); [|frame].
  apply preserves_bind; [apply bbox_configuration | intros b'].
  destruct b'; frame.
Qed.

(** On an attached instance the getter renders and reads the stored box. *)
Lemma bbox_attached (this : PrintLayout) (m : Map) :
  getMap this = val m -> _map this = val m ->
  bbox host this
  = (Normal (values_bbox this),
     with_events (events this ++ [RenderSync m]) this).
Proof.
  intros Hg Hm. unfold bbox. rewrite bind_gets, Hg.
  unfold renderSync, emit, bind, modify.
  rewrite (onRender_attached host _ m); [reflexivity | exact Hg | exact Hm].
Qed.

(** However the getter ends, it leaves the instance attached to its map. *)
Lemma bbox_settles (this : PrintLayout) (m : Map) :
  getMap this = val m ->
  getMap (snd (bbox host this)) = val m
  /\ _map (snd (bbox host this)) = val m.
Proof.
  intros Hg.
  set (this' := with_events (events this ++ [RenderSync m]) this).
  assert (E : snd (bbox host this) = snd (onRender host this')).
  { unfold bbox. rewrite bind_gets, Hg.
    unfold renderSync, emit, bind, modify, gets. fold this'.
    destruct (onRender host this') as [[[]|e] s]; reflexivity. }
  rewrite E.
  assert (Hg' : getMap this' = val m) by exact Hg.
  destruct (same_ref (_map this') (val m)) eqn:S.
  - apply same_ref_val in S.
    rewrite (onRender_attached host this' m Hg' S). split; assumption.
  - pose proof (onRender_attaches host this' m Hg' S) as A.
    unfold attachment in A. injection A as A1 A2 _. split; assumption.
Qed.

Lemma bboxAsLonLat_attached (this : PrintLayout) (m : Map)
    (extent : list number) :
  getMap this = val m -> _map this = val m ->
  values_bbox this = val extent ->
  bboxAsLonLat host this
  = (Normal (val (transformExtent host extent "EPSG:3857" "EPSG:4326")),
     with_events (events this ++ [RenderSync m; RenderSync m]) this).
Proof.
  intros Hg Hm Hb. unfold bboxAsLonLat, bind.
  rewrite (bbox_attached this m Hg Hm), Hb. cbn [truthy].
  rewrite (bbox_attached _ m); [|exact Hg | exact Hm].
  cbn [values_bbox with_events]. rewrite Hb. unfold ret.
  unfold with_events. cbn. rewrite <- app_assoc. reflexivity.
Qed.

(** When the getter yields a box, the instance it leaves is attached and
    holds that box before re-projection. *)
Lemma bboxAsLonLat_available (this : PrintLayout) (m : Map)
    (e : list number) :
  getMap this = val m ->
  fst (bboxAsLonLat host this) = Normal (val e) ->
  exists (s : PrintLayout) (extent : list number),
    bboxAsLonLat host this = (Normal (val e), s)
    /\ getMap s = val m /\ _map s = val m
    /\ values_bbox s = val extent
    /\ e = transformExtent host extent "EPSG:3857" "EPSG:4326"
    /\ configuration s = configuration this.
Proof.
  intros Hg He.
  pose proof (bboxAsLonLat_configuration this) as Hc.
  destruct (bbox_settles this m Hg) as [Sg Sm].
  revert He Hc. unfold bboxAsLonLat, bind.
  destruct (bbox host this) as [[b1|x] s1]; simpl in Sg, Sm;
    [|discriminate].
  destruct (truthy b1); [|discriminate].
  rewrite (bbox_attached s1 m Sg Sm).
  destruct (values_bbox s1) as [| |extent] eqn:Hb; try discriminate.
  unfold ret. simpl. intros He Hc. injection He as <-.
  eexists. exists extent. repeat split; try assumption.
Qed.

(** With a map attached and a box available, the method returns the
    quotient of the distance and the width in m. *)
Lemma scale_denominator_value (this : PrintLayout) (m : Map)
    (e : list number) (mm : Size) :
  getMap this = val m ->
  fst (bboxAsLonLat host this) = Normal (val e) ->
  getPrintBoxSizeInMM this = Normal mm ->
  fst (getPrintMapScaleDenominator host this)
  = Normal (val (div (getDistance host (firstn 2 e) (firstn 2 (skipn 2 e)))
                     (div (width mm) (of_Z 1000)))).
Proof.
  intros Hg He Hmm.
  destruct (bboxAsLonLat_available this m e Hg He)
    as [s [extent [E [Sg [Sm [Sb [Et Sc]]]]]]].
  unfold getPrintMapScaleDenominator, bind at 1. rewrite E.
  cbn [truthy negb]. unfold bind at 1.
  rewrite (bboxAsLonLat_attached s m extent Sg Sm Sb), <- Et.
  unfold bind, reading, ret.
  rewrite (getPrintBoxSizeInMM_configuration this); [|exact Sc].
  rewrite Hmm. reflexivity.
Qed.

End Scale.

(** C10 fails as stated.  With margins that use up the whole A4 sheet the
    print area collapses to a point, the distance between its corners is 0
    and the printable width is 0, and the result is [NaN], not infinite.
    With a left margin of [Infinity] the distance is above zero and the
    width is [-Infinity], and the result is the negative zero, which is
    not below zero. *)
Lemma scale_neither_infinite_nor_negative :
  let used_up :=
    added_to 1%nat
      (constructor (with_margins_option
         {| top := div (of_Z 297) (of_Z 20);
            bottom := div (of_Z 297) (of_Z 20);
            left := div (of_Z 21) (of_Z 2);
            right := div (of_Z 21) (of_Z 2) |})) in
  let unbounded :=
    added_to 1%nat
      (constructor (with_margins_option
         {| top := of_Z 2; bottom := of_Z 2;
            left := Infinity; right := of_Z 2 |})) in
  (getMap used_up = val 1%nat
   /\ fst (bboxAsLonLat sample_host used_up)
      = Normal (val [of_Z 210; of_Z 297; of_Z 210; of_Z 297])
   /\ getPrintBoxSizeInMM used_up
      = Normal {| width := of_Z 0; height := of_Z 0 |}
   /\ fst (getPrintMapScaleDenominator sample_host used_up)
      = Normal (val NaN))
  /\ (getMap unbounded = val 1%nat
      /\ fst (bboxAsLonLat sample_host unbounded)
         = Normal (val [of_Z 0; of_Z 554; of_Z 380; of_Z 40])
      /\ getPrintBoxSizeInMM unbounded
         = Normal {| width := NegInfinity; height := of_Z 257 |}
      /\ lt (of_Z 0)
           (getDistance sample_host [of_Z 0; of_Z 554] [of_Z 380; of_Z 40])
         = true
      /\ fst (getPrintMapScaleDenominator sample_host unbounded)
         = Normal (val neg_zero)
      /\ lt neg_zero (of_Z 0) = false).
Proof. repeat split; vm_compute; reflexivity. Qed.

(** C10, amended: with a map attached, a box [e] yielded by [bboxAsLonLat]
    and a size computed by [getPrintBoxSizeInMM] with width [w],
    [getPrintMapScaleDenominator] returns the distance [d] between
    [e.slice(0, 2)] and [e.slice(2, 4)] divided by [w / 1000], never
    [null] and never throwing.  When [d] is above zero this quotient is
    [Infinity] or [-Infinity] for [w] equal to zero, and for [w] below
    zero it is below zero, the negative zero or [NaN]. *)
Theorem scale_denominator_unguarded
    (host : Host) (this : PrintLayout) (m : Map) (e : list number)
    (mm : Size) :
  getMap this = val m ->
  fst (bboxAsLonLat host this) = Normal (val e) ->
  getPrintBoxSizeInMM this = Normal mm ->
  let d := getDistance host (firstn 2 e) (firstn 2 (skipn 2 e)) in
  let r := div d (div (width mm) (of_Z 1000)) in
  fst (getPrintMapScaleDenominator host this) = Normal (val r)
  /\ (Positive d -> strict_eq (width mm) (of_Z 0) = true ->
      r = Infinity \/ r = NegInfinity)
  /\ (Positive d -> Negative (width mm) ->
      Negative r \/ r = neg_zero \/ r = NaN).
Proof.
  intros Hg He Hmm d r. split; [|split].
  - apply (scale_denominator_value host this m e mm Hg He Hmm).
  - intros Hd Hw. apply (div_by_zero d _ Hd), zero_width_in_m, Hw.
  - intros Hd Hw. apply (div_by_negative d _ Hd).
    apply (negative_width_in_m (width mm) Hw).
Qed.

Lemma scale_denominator_unguarded_witness :
  let box (l : number) :=
    added_to 1%nat
      (constructor (with_margins_option
         {| top := of_Z 2; bottom := of_Z 2; left := l; right := l |})) in
  let scale (l : number) :=
    fst (getPrintMapScaleDenominator sample_host (box l)) in
  (exists r, scale (div (of_Z 21) (of_Z 2)) = Normal (val r)
             /\ (r = Infinity \/ r = NegInfinity))
  /\ (exists r, scale (of_Z 11) = Normal (val r)
                /\ (Negative r \/ r = neg_zero \/ r = NaN)).
Proof.
  intros box scale. split.
  - destruct (scale_denominator_unguarded sample_host
                (box (div (of_Z 21) (of_Z 2))) 1%nat
                [of_Z 210; of_Z 554; of_Z 210; of_Z 40]
                {| width := of_Z 0; height := of_Z 257 |})
      as [R [Z _]]; try (vm_compute; reflexivity).
    eexists. split; [exact R|].
    apply Z; vm_compute; reflexivity.
  - destruct (scale_denominator_unguarded sample_host (box (of_Z 11)) 1%nat
                [of_Z 220; of_Z 554; of_Z 200; of_Z 40]
                {| width := of_Z (-10); height := of_Z 257 |})
      as [R [_ N]]; try (vm_compute; reflexivity).
    eexists. split; [exact R|].
    apply N; vm_compute; reflexivity.
Defined.

(* ------------------------------------------------------------------ *)
(** ** Assigning a format *)

(** Every name the format setter accepts has an entry in the table of
    sizes. *)
Lemma accepted_format_has_size (host : Host) (s : string) :
  js_in (toUpperCase host s) PAPER_FORMAT = true ->
  In (toUpperCase host s) (Object_values PAPER_FORMAT)
  /\ exists ps, own PAPER_SIZE (toUpperCase host s) = Some ps.
Proof.
  unfold js_in. rewrite upper_not_inherited, orb_false_r.
  intros H. apply mem_In in H. split; [exact H|].
  simpl in H.
  repeat (destruct H as [H|H];
          [rewrite <- H; eexists; vm_compute; reflexivity|]).
  contradiction.
Qed.

(** X1: an input that matches a known format ignoring case is stored
    upper-cased by the [paperFormat] setter in every state and on every
    host, also when the stored format was one the layout cannot size; the
    stored value is one of the values of [PAPER_FORMAT], and
    [getPrintBoxSizeInMM] then returns a size.  The assignment returns
    normally when the instance is on no map or on a displayed one. *)
Theorem format_assignment_accepted
    (host : Host) (this : PrintLayout) (s : string) :
  known_ignoring_case host (Object_values PAPER_FORMAT) s = true ->
  let assigned := set_paperFormat host s this in
  paperFormat (snd assigned) = toUpperCase host s
  /\ In (paperFormat (snd assigned)) (Object_values PAPER_FORMAT)
  /\ (exists size, getPrintBoxSizeInMM (snd assigned) = Normal size)
  /\ (ready host (getMap this) -> fst assigned = Normal tt).
Proof.
  intros Hk assigned. rewrite <- in_PAPER_FORMAT in Hk.
  destruct (accepted_format_has_size host s Hk) as [Hin [ps Hps]].
  assert (S : PAPER_SIZE_at (toUpperCase host s) = Normal ps)
    by (unfold PAPER_SIZE_at; rewrite Hps; reflexivity).
  assert (F : paperFormat (snd assigned) = toUpperCase host s).
  { subst assigned. unfold set_paperFormat. rewrite Hk, bind_modify.
    pose proof (relayout_configuration host
                  (with_format (toUpperCase host s) this)) as H.
    unfold configuration in H. injection H as _ H _. exact H. }
  split; [exact F|]. split; [rewrite F; exact Hin|]. split.
  - unfold getPrintBoxSizeInMM. rewrite F, S. eexists. reflexivity.
  - intros Hr. subst assigned. unfold set_paperFormat.
    rewrite Hk, bind_modify.
    destruct (relayout_sized host (toUpperCase host s) ps S (getMap this) Hr
                (with_format (toUpperCase host s) this))
      as [[[] E] _]; [split; reflexivity | exact E].
Qed.

Lemma format_assignment_accepted_witness :
  let assigned :=
    set_paperFormat sample_host "Letter"
      (added_to 1%nat (constructor (with_format_option "a4"))) in
  paperFormat (snd assigned) = "LETTER"
  /\ In (paperFormat (snd assigned)) (Object_values PAPER_FORMAT)
  /\ (exists size, getPrintBoxSizeInMM (snd assigned) = Normal size)
  /\ fst assigned = Normal tt.
Proof.
  intros assigned.
  destruct (format_assignment_accepted sample_host
              (added_to 1%nat (constructor (with_format_option "a4")))
              "Letter")
    as [F [I [G R]]]; [reflexivity|].
  split; [exact F|]. split; [exact I|]. split; [exact G|].
  apply R. split; [eexists; reflexivity | intros p; eexists; reflexivity].
Defined.

(* ------------------------------------------------------------------ *)
(** ** A stored format without a size *)





(* ------------------------------------------------------------------ *)
(** ** What the margins setter leaves stored *)



(* ------------------------------------------------------------------ *)
(** ** Setters on an instance without a map *)






(* ------------------------------------------------------------------ *)
(** ** Setters on an instance with a map *)

Section WithMap.

Variable host : Host.







End WithMap.




(* ------------------------------------------------------------------ *)
(** ** Reading the box *)

Section Reading.

Variable host : Host.

(** What the getter returns is what it leaves stored. *)
Lemma bbox_result (this : PrintLayout) (m : Map)
    (b : nullable (list number)) :
  getMap this = val m ->
  fst (bbox host this) = Normal b ->
  values_bbox (snd (bbox host this)) = b.
Proof.
  intros Hg. unfold bbox. rewrite bind_gets, Hg. unfold bind, gets.
  destruct (renderSync host m this) as [[[]|e] s]; simpl; intros H.
  - injection H as H. exact H.
  - discriminate H.
Qed.

(** A second read finds the instance attached and the box in place. *)
Lemma bbox_again (this : PrintLayout) (m : Map)
    (b : nullable (list number)) :
  getMap this = val m ->
  fst (bbox host this) = Normal b ->
  bbox host (snd (bbox host this))
  = (Normal b,
     with_events (events (snd (bbox host this)) ++ [RenderSync m])
       (snd (bbox host this))).
Proof.
  intros Hg Hb.
  destruct (bbox_settles host this m Hg) as [Sg Sm].
  rewrite (bbox_attached host _ m Sg Sm), (bbox_result this m b Hg Hb).
  reflexivity.
Qed.


End Reading.

(** X6: on an instance that is on map [m], when the [bbox] getter returns
    [b], reading it again returns the same [b] and only records one more
    [renderSync()]; and [bboxAsLonLat] returns [null] if [b] is [null] or
    [undefined], and otherwise [transformExtent] of [b] from 'EPSG:3857'
    to 'EPSG:4326'. *)
Theorem bbox_read_is_stable
    (host : Host) (this : PrintLayout) (m : Map)
    (b : nullable (list number)) :
  getMap this = val m ->
  fst (bbox host this) = Normal b ->
  let s := snd (bbox host this) in
  bbox host s = (Normal b, with_events (events s ++ [RenderSync m]) s)
  /\ fst (bboxAsLonLat host this)
     = Normal match b with
              | val extent =>
                  val (transformExtent host extent "EPSG:3857" "EPSG:4326")
              | _ => null
              end.
Proof.
  intros Hg Hb s.
  pose proof (bbox_again host this m b Hg Hb) as R. fold s in R.
  split; [exact R|].
  unfold bboxAsLonLat, bind.
  destruct (bbox host this) as [r s'] eqn:E. simpl in Hb. subst r.
  change s' with s.
  destruct b as [| |extent]; simpl; try reflexivity.
  rewrite R. reflexivity.
Qed.

Lemma bbox_read_is_stable_witness :
  let this := added_to 1%nat (constructor None) in
  let b := val [of_Z 40; of_Z 554; of_Z 380; of_Z 40] in
  let s := snd (bbox sample_host this) in
  bbox sample_host s
  = (Normal b, with_events (events s ++ [RenderSync 1%nat]) s)
  /\ fst (bboxAsLonLat sample_host this)
     = Normal (val (transformExtent sample_host
                      [of_Z 40; of_Z 554; of_Z 380; of_Z 40]
                      "EPSG:3857" "EPSG:4326")).
Proof.
  intros this b.
  apply (bbox_read_is_stable sample_host this 1%nat b); reflexivity.
Defined.

(* ------------------------------------------------------------------ *)
(** ** No [TypeError] once the format has a size *)







(* ------------------------------------------------------------------ *)
(** ** Leaving a map *)

Lemma Listener_eqb_eq (a b : Listener) : Listener_eqb a b = true <-> a = b.
Proof.
  destruct a, b; simpl; split; intros H; try discriminate;
    try (apply Nat.eqb_eq in H; subst; reflexivity);
    injection H as ->; apply Nat.eqb_refl.
Qed.

Lemma Listener_eqb_refl (a : Listener) : Listener_eqb a a = true.
Proof. apply Listener_eqb_eq. reflexivity. Qed.

(** Unregistering a registered listener takes away one registration of it
    and none of any other. *)
Lemma count_remove_first (l x : Listener) (L : list Listener) :
  In x L ->
  (length (filter (Listener_eqb l) (remove_first x L))
   + (if Listener_eqb l x then 1 else 0)
   = length (filter (Listener_eqb l) L))%nat.
Proof.
  induction L as [|a L IH]; intros Hin; simpl in *.
  - contradiction.
  - destruct (Listener_eqb x a) eqn:E.
    + apply Listener_eqb_eq in E. subst a.
      destruct (Listener_eqb l x); simpl; lia.
    + destruct Hin as [->|Hin];
        [rewrite Listener_eqb_refl in E; discriminate E|].
      specialize (IH Hin). simpl.
      destruct (Listener_eqb l a); simpl; lia.
Qed.

Lemma In_remove_first (x y : Listener) (L : list Listener) :
  In x L -> Listener_eqb y x = false -> In x (remove_first y L).
Proof.
  induction L as [|a L IH]; intros Hin Hne; simpl in *.
  - contradiction.
  - destruct (Listener_eqb y a) eqn:E.
    + destruct Hin as [->|Hin]; [congruence | exact Hin].
    + destruct Hin as [->|Hin]; [left; reflexivity | right; auto].
Qed.

Lemma onControlsRemove_this (this : PrintLayout) (m : Map) :
  _map this = val m ->
  onControlsRemove m true this
  = (Normal tt,
     with__map null
       (with_listeners
          (remove_first (MapSizeChange m)
             (remove_first (ViewChange m)
                (remove_first (ControlsRemoveOnce m) (listeners this))))
          this)).
Proof.
  intros Hm. unfold onControlsRemove, unregister.
  rewrite bind_modify. unfold bind at 1, reading. simpl _map. rewrite Hm.
  rewrite Nat.eqb_refl. reflexivity.
Qed.

(** X8: attach, then leave.  After the render pass that attached the
    instance to map [m], the removal of this control from the controls of
    [m] runs the one-shot handler, which returns normally, sets [_map] to
    [null] and leaves every listener registered exactly as often as before
    the attachment; the next render pass on [m] then registers the three
    listeners again. *)
Theorem detach_undoes_attach
    (host : Host) (this : PrintLayout) (m : Map) :
  getMap this = val m ->
  same_ref (_map this) (val m) = false ->
  let attached := snd (onRender host this) in
  let removed := onControlsRemove m true attached in
  fst removed = Normal tt
  /\ _map (snd removed) = null
  /\ (forall l, registered l (snd removed) = registered l this)
  /\ listeners (snd (onRender host (snd removed)))
     = (listeners (snd removed)
        ++ [ViewChange m; MapSizeChange m; ControlsRemoveOnce m])%list.
Proof.
  intros Hg Hm attached removed.
  pose proof (onRender_attaches host this m Hg Hm) as A.
  fold attached in A. unfold attachment in A. injection A as Ag Am Al.
  assert (R : removed = onControlsRemove m true attached) by reflexivity.
  rewrite (onControlsRemove_this attached m Am) in R.
  rewrite R. simpl. repeat split.
  - intros l. unfold registered. simpl. rewrite Al.
    set (V := ViewChange m). set (S := MapSizeChange m).
    set (C := ControlsRemoveOnce m).
    set (L0 := (listeners this ++ [V; S; C])%list).
    assert (IC : In C L0) by (apply in_or_app; right; simpl; auto).
    assert (IV : In V (remove_first C L0)).
    { apply In_remove_first; [apply in_or_app; right; simpl; auto|].
      reflexivity. }
    assert (IS : In S (remove_first V (remove_first C L0))).
    { apply In_remove_first; [|reflexivity].
      apply In_remove_first; [apply in_or_app; right; simpl; auto|].
      reflexivity. }
    pose proof (count_remove_first l C L0 IC) as H1.
    pose proof (count_remove_first l V _ IV) as H2.
    pose proof (count_remove_first l S _ IS) as H3.
    assert (H0 : length (filter (Listener_eqb l) L0)
                 = (length (filter (Listener_eqb l) (listeners this))
                    + ((if Listener_eqb l V then 1 else 0)
                       + ((if Listener_eqb l S then 1 else 0)
                          + (if Listener_eqb l C then 1 else 0))))%nat).
    { subst L0. rewrite filter_app, length_app. simpl.
      destruct (Listener_eqb l V), (Listener_eqb l S), (Listener_eqb l C);
        reflexivity. }
    lia.
  - match goal with
    | |- listeners (snd (onRender host ?s)) = _ =>
        pose proof (onRender_attaches host s m Ag eq_refl) as A2
    end.
    unfold attachment in A2. injection A2 as _ _ A2. exact A2.
Qed.

Lemma detach_undoes_attach_witness :
  let this := added_to 1%nat (constructor None) in
  let attached := snd (onRender sample_host this) in
  let removed := onControlsRemove 1%nat true attached in
  fst removed = Normal tt
  /\ _map (snd removed) = null
  /\ (forall l, registered l (snd removed) = registered l this)
  /\ listeners (snd (onRender sample_host (snd removed)))
     = (listeners (snd removed)
        ++ [ViewChange 1%nat; MapSizeChange 1%nat;
            ControlsRemoveOnce 1%nat])%list.
Proof.
  intros this.
  apply (detach_undoes_attach sample_host this 1%nat); reflexivity.
Defined.

(** X9: the handler is registered with [once] and tests the removed element
    only inside.  On a new instance attached to map [m], the removal of
    some other control uses it up: it returns normally, [_map] stays [m],
    the view-change and the size-change listener stay registered once each,
    and no removal handler is left, whatever is called afterwards while the
    instance stays on [m]. *)
Theorem other_removal_uses_up_handler
    (host : Host) (options : option Options.t) (m : Map)
    (calls : list Call) :
  let attached := snd (onRender host (added_to m (constructor options))) in
  let removed := onControlsRemove m false attached in
  let later := run host calls (snd removed) in
  fst removed = Normal tt
  /\ _map later = val m
  /\ registered (ViewChange m) later = 1%nat
  /\ registered (MapSizeChange m) later = 1%nat
  /\ registered (ControlsRemoveOnce m) later = 0%nat.
Proof.
  intros attached removed later.
  assert (A : attachment attached
              = (val m, val m,
                 [ViewChange m; MapSizeChange m; ControlsRemoveOnce m])).
  { subst attached. apply (onRender_attaches host); reflexivity. }
  unfold attachment in A. injection A as Ag Am Al.
  assert (R : attachment (snd removed)
              = (val m, val m, [ViewChange m; MapSizeChange m])).
  { subst removed. unfold onControlsRemove, unregister.
    rewrite bind_modify. unfold ret, attachment. simpl.
    rewrite Ag, Am, Al. simpl. rewrite Nat.eqb_refl. reflexivity. }
  pose proof (run_steady host m _ calls (snd removed) R) as L.
  fold later in L. unfold attachment in L. injection L as _ Lm Ll.
  split; [reflexivity|]. split; [exact Lm|].
  unfold registered. rewrite Ll. simpl. rewrite Nat.eqb_refl.
  repeat split.
Qed.

(* ------------------------------------------------------------------ *)
(** ** The table of paper sizes *)

(* ------------------------------------------------------------------ *)
(** ** The table of paper sizes *)

Lemma own_In {V} (o : object V) (k : string) (v : V) :
  own o k = Some v -> In v (Object_values o).
Proof.
  induction o as [|[k' v'] o IH]; simpl.
  - discriminate.
  - destruct (String.eqb k k').
    + intros H. injection H as ->. left. reflexivity.
    + intros H. right. apply IH. exact H.
Qed.

(** Every entry is finite, with a short edge above zero and below the long
    edge; so 1 is above short over long and below long over short, and
    both stay below [Number.MAX_SAFE_INTEGER]. *)
Lemma paper_edges (ps : PaperSize) :
  In ps (Object_values PAPER_SIZE) ->
  isFinite (short ps) = true /\ isFinite (long ps) = true
  /\ lt (of_Z 0) (short ps) = true /\ lt (short ps) (long ps) = true
  /\ lt (of_Z 1) (div (short ps) (long ps)) = false
  /\ lt (of_Z 1) (div (long ps) (short ps)) = true
  /\ lt MAX_SAFE_INTEGER (div (short ps) (long ps)) = false
  /\ lt MAX_SAFE_INTEGER (div (long ps) (short ps)) = false.
Proof.
  intros H. simpl in H.
  repeat (destruct H as [<-|H]; [repeat split; vm_compute; reflexivity|]).
  contradiction.
Qed.

(* ------------------------------------------------------------------ *)
(** ** The restricting dimension *)

(** X10: for every stored format that is a key of [PAPER_SIZE]: without a
    map the restricting dimension is 'height' when the stored orientation
    is 'portrait' and 'width' otherwise; and on a map whose size has height
    0 it is 'height' whatever the orientation. *)
Theorem restricting_dimension_edge_cases
    (host : Host) (this : PrintLayout) (ps : PaperSize) :
  own PAPER_SIZE (paperFormat this) = Some ps ->
  (truthy (getMap this) = false ->
   getRestrictingDimension host this
   = Normal (if String.eqb (paperOrientation this) ORIENTATION_PORTRAIT
             then "height" else "width"))
  /\ (forall m w h,
        getMap this = val m -> getSize host m = Some (w, h) ->
        strict_eq h (of_Z 0) = true ->
        getRestrictingDimension host this = Normal "height").
Proof.
  intros Hps.
  assert (S : PAPER_SIZE_at (paperFormat this) = Normal ps)
    by (unfold PAPER_SIZE_at; rewrite Hps; reflexivity).
  apply own_In, paper_edges in Hps.
  destruct Hps as [_ [_ [_ [_ [P1 [L1 [PM LM]]]]]]].
  unfold getRestrictingDimension, getPaperMapAspectRatio,
    getScreenMapAspectRatio.
  rewrite S. split.
  - intros Hm.
    assert (E : match getMap this with
                | val m =>
                    match getSize host m with
                    | Some (w, h) =>
                        Normal (if strict_eq h (of_Z 0)
                                then MAX_SAFE_INTEGER else div w h)
                    | None => Throw TypeError
                    end
                | _ => Normal (of_Z 1)
                end = Normal (of_Z 1))
      by (destruct (getMap this); try discriminate Hm; reflexivity).
    rewrite E.
    destruct (String.eqb (paperOrientation this) ORIENTATION_PORTRAIT);
      [rewrite P1 | rewrite L1]; reflexivity.
  - intros m w h Hm Hs Hz. rewrite Hm, Hs, Hz.
    destruct (String.eqb (paperOrientation this) ORIENTATION_PORTRAIT);
      [rewrite PM | rewrite LM]; reflexivity.
Qed.

Lemma restricting_dimension_edge_cases_witness :
  getRestrictingDimension sample_host (constructor None) = Normal "height"
  /\ getRestrictingDimension collapsed_host
       (added_to 1%nat
          (snd (set_paperOrientation collapsed_host "landscape"
                  (constructor None))))
     = Normal "height".
Proof.
  split.
  - apply (restricting_dimension_edge_cases sample_host (constructor None)
             {| short := of_Z 210; long := of_Z 297 |});
      reflexivity.
  - apply (proj2 (restricting_dimension_edge_cases collapsed_host
                    (added_to 1%nat
                       (snd (set_paperOrientation collapsed_host "landscape"
                               (constructor None))))
                    {| short := of_Z 210; long := of_Z 297 |} eq_refl)
             1%nat (of_Z 800) (of_Z 0));
      reflexivity.
Defined.

(* ------------------------------------------------------------------ *)
(** ** The orientation after an accepted assignment *)


(** X12: after any accepted assignment to [paperOrientation] on an instance
    whose stored format is a key of [PAPER_SIZE], whatever the accepted
    input was, [getPrintBoxSizeInMM] measures the width from the long edge
    and the height from the short edge, and [getPaperMapAspectRatio] is
    long over short: the stored value is the upper-cased input, which is
    never equal to [ORIENTATION.PORTRAIT]. *)
Theorem accepted_orientation_measures_long_edge
    (host : Host) (this : PrintLayout) (s : string) (ps : PaperSize) :
  js_in (toUpperCase host s) ORIENTATION = true ->
  own PAPER_SIZE (paperFormat this) = Some ps ->
  let after := snd (set_paperOrientation host s this) in
  let m := margins this in
  getPrintBoxSizeInMM after
  = Normal {| width := sub (long ps)
                         (mul (add (left m) (right m)) (of_Z 10));
              height := sub (short ps)
                          (mul (add (top m) (bottom m)) (of_Z 10)) |}
  /\ getPaperMapAspectRatio after = Normal (div (long ps) (short ps)).
Proof.
  intros Hs Hps after m.
  destruct (accepted_orientation_is_not_PORTRAIT host this s Hs) as [Ho Hne].
  fold after in Ho.
  assert (C : configuration after
              = configuration (with_orientation (toUpperCase host s) this)).
  { subst after. unfold set_paperOrientation. rewrite Hs, bind_modify.
    apply relayout_configuration. }
  unfold configuration in C. simpl in C. injection C as _ Cf Cm.
  unfold getPrintBoxSizeInMM, getPaperMapAspectRatio, paperFormat, margins,
    PAPER_SIZE_at.
  unfold paperFormat in Hps. unfold paperOrientation in Ho.
  rewrite Cf, Cm, Hps. unfold paperOrientation. rewrite Ho, Hne.
  split; reflexivity.
Qed.

Lemma accepted_orientation_measures_long_edge_witness :
  getPrintBoxSizeInMM
    (snd (set_paperOrientation sample_host "Portrait" (constructor None)))
  = Normal {| width := sub (of_Z 297)
                         (mul (add (of_Z 2) (of_Z 2)) (of_Z 10));
              height := sub (of_Z 210)
                          (mul (add (of_Z 2) (of_Z 2)) (of_Z 10)) |}
  /\ getPaperMapAspectRatio
       (snd (set_paperOrientation sample_host "Portrait" (constructor None)))
     = Normal (div (of_Z 297) (of_Z 210)).
Proof.
  apply (accepted_orientation_measures_long_edge sample_host
           (constructor None) "Portrait"
           {| short := of_Z 210; long := of_Z 297 |});
    reflexivity.
Defined.

(* ------------------------------------------------------------------ *)
(** ** A map without a size, a map without a frame *)





(** X17: on a map whose [getCoordinateFromPixel] yields [null] (no frame
    rendered yet), [computeBbox] throws a [TypeError] when it spreads the
    corners, and [handleBboxChange], the listener of the view's ['change'],
    throws it before storing or notifying anything. *)
Theorem unrendered_map_throws
    (host : Host) (this : PrintLayout) (m : Map) :
  getMap this = val m ->
  (forall pixel, getCoordinateFromPixel host m pixel = None) ->
  computeBbox host this = Throw TypeError
  /\ handleBboxChange host this = (Throw TypeError, this).
Proof.
  intros Hg Hc.
  assert (C : computeBbox host this = Throw TypeError).
  { unfold computeBbox. rewrite Hg, Hc. reflexivity. }
  split; [exact C|].
  unfold handleBboxChange, set_bbox, bind, reading. rewrite C. reflexivity.
Qed.

Lemma unrendered_map_throws_witness :
  let this := added_to 1%nat (constructor None) in
  computeBbox unrendered_host this = Throw TypeError
  /\ handleBboxChange unrendered_host this = (Throw TypeError, this).
Proof.
  intros this.
  apply (unrendered_map_throws unrendered_host this 1%nat).
  - reflexivity.
  - intros pixel. reflexivity.
Defined.
